(** * A shallow embedding of [read_sensor_data.py]

    The script reads DHT22 sensors, appends each reading to a local
    tab-separated log and to a Google Sheet, and sleeps between cycles.
    The model follows the Python source function by function:

    - Python exceptions are the constructors of [exn]; a computation that
      may raise returns a [res].
    - The file system seen by [glob], [open] and [os.makedirs] is an
      association list from normalised path strings to nodes.
    - The poll loop runs in a small state-and-exception monad whose state
      is the trace of external calls made so far (file writes, gspread
      calls, sensor reads, sleeps). What an external call returns is
      decided by a [world] (an oracle), universally quantified in the
      theorems.
    - Temperatures and humidities are IEEE-754 binary64 numbers
      ([spec_float] with 53 bits of precision); clock readings
      ([time.time()]) are rationals. *)

From Stdlib Require Import String Ascii List Bool Arith Lia ZArith QArith Qround.
From Corelib Require Import SpecFloat.
From Stdlib Require Import Lqa.
Import ListNotations.
Close Scope Q_scope.
Open Scope nat_scope.
Open Scope string_scope.

(* ------------------------------------------------------------------ *)
(** ** Python values, exceptions and results *)

Inductive exn :=
| ValueError            (* tuple unpacking of the wrong length *)
| TypeError             (* subscripting [None] *)
| AttributeError        (* [None.write] *)
| IOError               (* a failed write, flush or network call *)
| IsADirectoryError
| NotADirectoryError
| FileNotFoundError
| FileExistsError
| SensorError.          (* an exception escaping [Adafruit_DHT.read_retry] *)

Inductive res (A : Type) :=
| POk (a : A)
| PExn (e : exn).
Arguments POk {A} a.
Arguments PExn {A} e.

Definition res_bind {A B} (r : res A) (k : A -> res B) : res B :=
  match r with POk a => k a | PExn e => PExn e end.

Notation "x <-? r ;; k" := (res_bind r (fun x => k))
  (at level 61, r at next level, right associativity).

(** A Python [dict] with string keys: insertion-ordered, and assigning an
    existing key replaces its value in place. *)
Definition dict (V : Type) := list (string * V).

Fixpoint dict_set {V} (d : dict V) (k : string) (v : V) : dict V :=
  match d with
  | [] => [(k, v)]
  | (k', v') :: d' =>
      if String.eqb k k' then (k, v) :: d' else (k', v') :: dict_set d' k v
  end.

(** [d.get(k)] and [d[k]] when present. *)
Fixpoint dict_get {V} (d : dict V) (k : string) : option V :=
  match d with
  | [] => None
  | (k', v') :: d' => if String.eqb k k' then Some v' else dict_get d' k
  end.

(* ------------------------------------------------------------------ *)
(** ** String primitives of Python used by the script *)

(** [needle in hay]. *)
Fixpoint contains (needle hay : string) : bool :=
  String.prefix needle hay ||
  match hay with
  | EmptyString => false
  | String _ hay' => contains needle hay'
  end.

Fixpoint rfind_aux (c : ascii) (s : string) (i : nat) (acc : option nat)
  : option nat :=
  match s with
  | EmptyString => acc
  | String a s' =>
      rfind_aux c s' (S i) (if Ascii.eqb a c then Some i else acc)
  end.

(** [s.rfind(c)], [None] standing for [-1]. *)
Definition rfind (c : ascii) (s : string) : option nat := rfind_aux c s 0 None.

Definition slash : ascii := "/".
Definition dot : ascii := ".".

Definition drop (n : nat) (s : string) : string :=
  substring n (String.length s - n) s.

Fixpoint all_char (c : ascii) (s : string) : bool :=
  match s with
  | EmptyString => true
  | String a s' => Ascii.eqb a c && all_char c s'
  end.

Fixpoint rstrip_slash_l (l : list ascii) : list ascii :=
  match l with
  | [] => []
  | a :: l' =>
      match rstrip_slash_l l' with
      | [] => if Ascii.eqb a slash then [] else [a]
      | r => a :: r
      end
  end.

(** [s.rstrip('/')]. *)
Definition rstrip_slash (s : string) : string :=
  string_of_list_ascii (rstrip_slash_l (list_ascii_of_string s)).

Fixpoint last_char (s : string) : option ascii :=
  match s with
  | EmptyString => None
  | String a EmptyString => Some a
  | String _ s' => last_char s'
  end.

(** A path that does not end in a slash, as [os.path.realpath] returns. *)
Definition ends_in_name (s : string) : bool :=
  match last_char s with Some a => negb (Ascii.eqb a slash) | None => false end.

Fixpoint no_char (c : ascii) (s : string) : bool :=
  match s with
  | EmptyString => true
  | String a s' => negb (Ascii.eqb a c) && no_char c s'
  end.

(** [os.path.basename]. *)
Definition basename (p : string) : string :=
  match rfind slash p with Some i => drop (S i) p | None => p end.

(** [os.path.split]. *)
Definition pysplit (p : string) : string * string :=
  let i := match rfind slash p with Some i => S i | None => 0 end in
  let head := substring 0 i p in
  let tail := drop i p in
  let head' := if negb (String.eqb head "") && negb (all_char slash head)
               then rstrip_slash head else head in
  (head', tail).

(** [os.path.join(a, b)] for two components. *)
Definition join (a b : string) : string :=
  match b with
  | String c _ => if Ascii.eqb c slash then b
                  else if String.eqb a "" then b
                  else if String.eqb (basename a) "" then a ++ b
                  else a ++ "/" ++ b
  | EmptyString => if String.eqb a "" then b
                   else if String.eqb (basename a) "" then a else a ++ "/"
  end.

(** [os.path.splitext(name)[0]] for a name without a slash (the script
    applies it to a basename): the last dot starts the extension unless
    only dots precede it. *)
Definition splitext_root (p : string) : string :=
  match rfind dot p with
  | Some d => if all_char dot (substring 0 d p) then p else substring 0 d p
  | None => p
  end.

(** [str.split()] with no argument: maximal runs of non-whitespace.  The
    file contents are taken as ASCII text, so the whitespace set is the
    ASCII part of [str.isspace]. *)
Definition is_space (a : ascii) : bool :=
  let n := nat_of_ascii a in
  ((9 <=? n) && (n <=? 13) || (28 <=? n) && (n <=? 32))%nat.

Fixpoint split_ws_aux (s : string) (cur : list ascii) : list string :=
  match s with
  | EmptyString =>
      match cur with [] => [] | _ => [string_of_list_ascii (rev cur)] end
  | String a s' =>
      if is_space a then
        match cur with
        | [] => split_ws_aux s' []
        | _ => string_of_list_ascii (rev cur) :: split_ws_aux s' []
        end
      else split_ws_aux s' (a :: cur)
  end.

Definition py_split (s : string) : list string := split_ws_aux s [].

(** Reading a text file line by line: universal newlines turn ["\r\n"]
    and ["\r"] into ["\n"]; each line keeps its ["\n"] (irrelevant here,
    since every line goes through [str.split()]); a final ["\n"] does not
    start an empty line. *)
Definition CR : ascii := ascii_of_nat 13.
Definition LF : ascii := ascii_of_nat 10.

Fixpoint universal_newlines (l : list ascii) : list ascii :=
  match l with
  | [] => []
  | a :: l' =>
      if Ascii.eqb a CR then
        match l' with
        | b :: l'' => if Ascii.eqb b LF then LF :: universal_newlines l''
                      else LF :: universal_newlines l'
        | [] => [LF]
        end
      else a :: universal_newlines l'
  end.

Fixpoint lines_aux (l : list ascii) (cur : list ascii) : list string :=
  match l with
  | [] => match cur with [] => [] | _ => [string_of_list_ascii (rev cur)] end
  | a :: l' =>
      if Ascii.eqb a LF then string_of_list_ascii (rev (a :: cur)) :: lines_aux l' []
      else lines_aux l' (a :: cur)
  end.

Definition py_lines (content : string) : list string :=
  lines_aux (universal_newlines (list_ascii_of_string content)) [].

(* ------------------------------------------------------------------ *)
(** ** The file system *)

Inductive node :=
| NFile (contents : string)
| NDir.

(** Paths are normalised strings (no trailing or doubled slash); the
    order of the list is the order in which a directory is listed. *)
Definition fs := list (string * node).

Fixpoint lookup (f : fs) (p : string) : option node :=
  match f with
  | [] => None
  | (q, n) :: f' => if String.eqb p q then Some n else lookup f' p
  end.

(** [os.path.exists]. *)
Definition exists_path (f : fs) (p : string) : bool :=
  match lookup f p with Some _ => true | None => false end.

Definition is_dir (f : fs) (d : string) : bool :=
  match lookup f d with Some NDir => true | _ => false end.

Definition starts_with_dot (s : string) : bool :=
  match s with String a _ => Ascii.eqb a dot | EmptyString => false end.

Fixpoint drop_last (s : string) : string :=
  match s with
  | EmptyString => EmptyString
  | String _ EmptyString => EmptyString
  | String a s' => String a (drop_last s')
  end.

(** [glob.glob(pat)] for a pattern whose only wildcard is a final ['*']
    (the script calls it as [glob.glob(dir_path + '*')]): split the
    pattern with [os.path.split]; list the directory part ([os.curdir]
    when it is empty; no names when it is not a directory); keep the
    names that start with the literal part of the last component; as in
    [glob._glob1], names starting with a dot are dropped unless that
    component itself starts with a dot; join the names back onto the
    directory part. *)
Definition glob_star (f : fs) (pat : string) : list string :=
  let (d, b) := pysplit pat in
  let lit := drop_last b in
  if String.eqb d "" || is_dir f d then
    map (fun n => join d n)
      (filter (fun n => String.prefix lit n &&
                        (starts_with_dot lit || negb (starts_with_dot n)))
        (flat_map (fun e => let (d', n) := pysplit (fst e) in
                            if String.eqb d' d && negb (String.eqb n "")
                            then [n] else [])
           f))
  else [].

(** [open(p, 'r').read()]. *)
Definition read_text (f : fs) (p : string) : res string :=
  match lookup f p with
  | Some (NFile c) => POk c
  | Some NDir => PExn IsADirectoryError
  | None => PExn FileNotFoundError
  end.

(* ------------------------------------------------------------------ *)
(** ** [open_url_files] *)

(** The inner loop: [(key, value) = line.split(); nest_dict[key] = value]. *)
Fixpoint parse_lines (ls : list string) (nest_dict : dict string)
  : res (dict string) :=
  match ls with
  | [] => POk nest_dict
  | line :: ls' =>
      match py_split line with
      | [key; value] => parse_lines ls' (dict_set nest_dict key value)
      | _ => PExn ValueError
      end
  end.

Definition parse_url_file (content : string) : res (dict string) :=
  parse_lines (py_lines content) [].

(** [file_string = os.path.splitext(os.path.basename(file_path))[0]]. *)
Definition file_string_of (file_path : string) : string :=
  splitext_root (basename file_path).

(** [any(sensor_string in file_string for sensor_string in sensor_list)]. *)
Definition matches (sensor_list : list string) (file_string : string) : bool :=
  existsb (fun sensor_string => contains sensor_string file_string) sensor_list.

Fixpoint url_loop (f : fs) (sensor_list : list string) (paths : list string)
  (url_dict : dict (dict string)) : res (dict (dict string)) :=
  match paths with
  | [] => POk url_dict
  | file_path :: rest =>
      let file_string := file_string_of file_path in
      if matches sensor_list file_string then
        content <-? read_text f file_path ;;
        nest_dict <-? parse_url_file content ;;
        url_loop f sensor_list rest (dict_set url_dict file_string nest_dict)
      else url_loop f sensor_list rest url_dict
  end.

(** The [print] calls of the loop are diagnostics only and are left out. *)
Definition open_url_files (f : fs) (dir_path : string) (sensor_list : list string)
  : res (dict (dict string)) :=
  url_loop f sensor_list (glob_star f (dir_path ++ "*")) [].

(* ------------------------------------------------------------------ *)
(** ** [os.makedirs], [open_output_file] and the start of [main]

    Permissions are not modelled: [mkdir] fails only when the path exists
    or its parent is not a directory. *)

Definition mkdir (f : fs) (name : string) : res fs :=
  if exists_path f name then PExn FileExistsError
  else
    let (head, _) := pysplit name in
    if String.eqb head "" || is_dir f head then POk (f ++ [(name, NDir)])%list
    else if exists_path f head then PExn NotADirectoryError
    else PExn FileNotFoundError.

(** [os.makedirs(name)] with [exist_ok=False]; the fuel is the length of
    the path, which decreases along the recursive call on [head]. *)
Fixpoint makedirs_fuel (fuel : nat) (f : fs) (name : string) : res fs :=
  match fuel with
  | 0 => mkdir f name
  | S fuel' =>
      let (head, tail) := pysplit name in
      let pre :=
        if negb (String.eqb head "") && negb (String.eqb tail "")
           && negb (exists_path f head)
        then match makedirs_fuel fuel' f head with
             | PExn FileExistsError => POk f
             | r => r
             end
        else POk f in
      f1 <-? pre ;; mkdir f1 name
  end.

Definition makedirs (f : fs) (name : string) : res fs :=
  makedirs_fuel (String.length name) f name.

Definition TAB : string := String (ascii_of_nat 9) EmptyString.
Definition CRLF : string := String CR (String LF EmptyString).

(** ['date\ttime\ttemp_c\ttemp_f\thumidity\tpin\r\n']. *)
Definition header : string :=
  "date" ++ TAB ++ "time" ++ TAB ++ "temp_c" ++ TAB ++ "temp_f" ++ TAB
  ++ "humidity" ++ TAB ++ "pin" ++ CRLF.

Fixpoint update (f : fs) (p : string) (n : node) : fs :=
  match f with
  | [] => []
  | (q, m) :: f' => if String.eqb p q then (q, n) :: f' else (q, m) :: update f' p n
  end.

(** The [try] block of [open_output_file]: [open(path, 'a+')], and the
    header when [os.stat(path).st_size == 0]; [except: pass] turns every
    error into the implicit [return None].  A file handle is represented
    by the path it writes to; writes are not buffered in the model (every
    data line is flushed right after it is written). *)
Definition open_output_try (f : fs) (output_file_path : string)
  : fs * option string :=
  match lookup f output_file_path with
  | Some NDir => (f, None)
  | Some (NFile c) =>
      if String.eqb c "" then (update f output_file_path (NFile header),
                               Some output_file_path)
      else (f, Some output_file_path)
  | None =>
      let (head, _) := pysplit output_file_path in
      if String.eqb head "" || is_dir f head
      then ((f ++ [(output_file_path, NFile header)])%list, Some output_file_path)
      else (f, None)
  end.

(** [open_output_file()]; [script] is [os.path.realpath(__file__)]. *)
Definition output_dir_of (script : string) : string := join script "output".
Definition output_file_path_of (script : string) : string :=
  join (output_dir_of script) "sensor_output.csv".

Definition open_output_file (f : fs) (script : string)
  : res (fs * option string) :=
  let output_dir := output_dir_of script in
  f1 <-? (if negb (exists_path f output_dir) then makedirs f output_dir
          else POk f) ;;
  POk (open_output_try f1 (output_file_path_of script)).

(** The sensors named in [main]. *)
Definition main_sensors : list string := ["home_livingroom"; "home_outside"].

(** [main] up to the [while True] loop: load the configuration from
    [os.path.join(script, "url")], then open the output file.  The
    result is what the loop starts from: the sheet ids, the file system
    and the file handle. *)
Definition startup (f : fs) (script : string)
  : res (dict (dict string) * fs * option string) :=
  sheet_ids <-? open_url_files f (join script "url") main_sensors ;;
  r <-? open_output_file f script ;;
  POk (sheet_ids, fst r, snd r).

(* ------------------------------------------------------------------ *)
(** ** Python floats *)

Definition prec : Z := 53.
Definition emax : Z := 1024.
Definition float := spec_float.

Definition fmul := SFmul prec emax.
Definition fdiv := SFdiv prec emax.
Definition fadd := SFadd prec emax.

(** [float(z)] for an integer [z] (exact for the small integers used). *)
Definition float_of_Z (z : Z) : float := binary_normalize prec emax z 0 false.

(** Round-half-even of [10 * x] for a finite [x = (-1)^s * m * 2^e]:
    the magnitude of the integer [n] such that [n/10] is [x] rounded to
    one decimal, as both [format(x, '0.1f')] and [round(x, 1)] do. *)
Definition tenths_mag (m : positive) (e : Z) : Z :=
  match e with
  | Z0 => 10 * Zpos m
  | Zpos _ => 10 * Zpos m * 2 ^ e
  | Zneg k =>
      let num := 10 * Zpos m in
      let den := 2 ^ Zpos k in
      let q := num / den in
      let r := num mod den in
      match Z.compare (2 * r) den with
      | Lt => q
      | Gt => q + 1
      | Eq => if Z.even q then q else q + 1
      end
  end%Z.

Definition digit (d : Z) : ascii := ascii_of_nat (48 + Z.to_nat d).

Fixpoint digits_aux (fuel : nat) (n : Z) (acc : string) : string :=
  match fuel with
  | 0 => acc
  | S fuel' =>
      let acc' := String (digit (n mod 10)%Z) acc in
      if (n <? 10)%Z then acc' else digits_aux fuel' (n / 10)%Z acc'
  end.

(** [str(n)] for [n >= 0]. *)
Definition Z_to_dec (n : Z) : string := digits_aux (S (Z.to_nat (Z.log2 (Z.max n 1)))) n "".

(** ['{:0.1f}'.format(x)]. *)
Definition fmt1 (x : float) : string :=
  match x with
  | S754_zero s => if s then "-0.0" else "0.0"
  | S754_infinity s => if s then "-inf" else "inf"
  | S754_nan => "nan"
  | S754_finite s m e =>
      let n := tenths_mag m e in
      (if s then "-" else "") ++ Z_to_dec (n / 10)%Z ++ "."
      ++ String (digit (n mod 10)%Z) EmptyString
  end.

(** [round(x, 1)]: the double nearest to the decimal [n/10]. *)
Definition round1 (x : float) : float :=
  match x with
  | S754_finite s m e =>
      let n := tenths_mag m e in
      if (n =? 0)%Z then S754_zero s
      else fdiv (float_of_Z (if s then - n else n)%Z) (float_of_Z 10)
  | _ => x
  end.

(** [(temp_c * 9/5) + 32], parsed as [((temp_c * 9) / 5) + 32]. *)
Definition to_fahrenheit (temp_c : float) : float :=
  fadd (fdiv (fmul temp_c (float_of_Z 9)) (float_of_Z 5)) (float_of_Z 32).

(** The exact value of a finite float. *)
Definition float_to_Q (x : float) : option Q :=
  match x with
  | S754_zero _ => Some 0%Q
  | S754_finite s m e =>
      let v := match e with
               | Zneg k => Qmake (Zpos m) (2 ^ k)
               | _ => inject_Z (Zpos m * 2 ^ e)
               end in
      Some (if s then Qopp v else v)
  | _ => None
  end.

(* ------------------------------------------------------------------ *)
(** ** External calls, the trace and the monad of the poll loop *)

(** The two [time.strftime] results of a [time.localtime()] value. *)
Record tm := mk_tm { tm_date : string;    (* ['%Y-%m-%d'] *)
                     tm_time : string }.  (* ['%H:%M:%S'] *)

Inductive pyval :=
| PStr (s : string)
| PFloat (x : float).

(** External calls, in the order they are made.  A file handle is the
    path it writes to; a gspread call carries the spreadsheet key. *)
Inductive event :=
| ERead (pin : option string)
| EWrite (handle : string) (line : string) (ok : bool)
| EFlush (handle : string) (ok : bool)
| EAuth (ok : bool)                                   (* gspread.service_account() *)
| EOpenSheet (key : option string) (ok : bool)        (* gc.open_by_key(key).sheet1 *)
| EAppendRow (key : option string) (row : list pyval) (ok : bool)
| ESleep (secs : Q).

(** What the outside world answers. *)
Record world := mk_world {
  w_start : Q;                    (* [time.time()] when [main] starts *)
  w_localtime : nat -> tm;        (* [time.localtime()] at the top of cycle k *)
  w_time : nat -> Q;              (* [time.time()] at the end of cycle k *)
  (* [Adafruit_DHT.read_retry(DHT22, pin)] made when the trace has length i:
     a pair [(humidity, temp_c)] of possibly-[None] floats, or an exception *)
  w_read : nat -> option string -> res (option float * option float);
  (* whether the write, flush or gspread call made when the trace has
     length i succeeds (otherwise it raises) *)
  w_ok : nat -> bool }.

Definition trace := list event.
Definition M (A : Type) := trace -> res A * trace.

Definition ret {A} (a : A) : M A := fun t => (POk a, t).
Definition bind {A B} (m : M A) (k : A -> M B) : M B :=
  fun t => match m t with
           | (POk a, t') => k a t'
           | (PExn e, t') => (PExn e, t')
           end.
Definition raise {A} (e : exn) : M A := fun t => (PExn e, t).

Notation "x <- m ;; k" := (bind m (fun x => k))
  (at level 61, m at next level, right associativity).
Notation "m ;;; k" := (bind m (fun _ => k))
  (at level 61, right associativity).

(** [try: body except: print(...)]: a bare [except] catches everything;
    the effects made before the exception stay in the trace. *)
Definition try_all (body : M unit) : M unit :=
  fun t => match body t with
           | (PExn _, t') => (POk tt, t')
           | r => r
           end.

(** A sensor reading as [read_sensor] returns it:
    [[time.strftime('%H:%M:%S', input_time), temp_c, temp_f, humidity]]. *)
Record sensor_list := mk_sensor_list {
  sl_time : string; sl_temp_c : float; sl_temp_f : float; sl_humidity : float }.

(** ['{0}'] of [dht_pin], which is [sensor_dict.get('pin')]. *)
Definition str_pin (dht_pin : option string) : string :=
  match dht_pin with Some s => s | None => "None" end.

(** ['{0}\t{1}\t{2:0.1f}\t{3:0.1f}\t{4:0.1f}\t{5}\r\n'.format(...)]. *)
Definition log_line (input_time : tm) (l : sensor_list) (dht_pin : option string)
  : string :=
  tm_date input_time ++ TAB ++ sl_time l ++ TAB ++ fmt1 (sl_temp_c l) ++ TAB
  ++ fmt1 (sl_temp_f l) ++ TAB ++ fmt1 (sl_humidity l) ++ TAB
  ++ str_pin dht_pin ++ CRLF.

(** The row built by [append_google_sheet]. *)
Definition sheet_row (input_time : tm) (l : sensor_list) : list pyval :=
  [PStr (tm_date input_time); PStr (sl_time l); PFloat (round1 (sl_temp_c l));
   PFloat (round1 (sl_temp_f l)); PFloat (round1 (sl_humidity l))].

(** The delay of [time.sleep(120.0 - ((time.time() - start_time) % 60.0))];
    Python's [%] with a positive divisor is [x - 60 * floor(x / 60)]. *)
Definition py_mod (x y : Q) : Q := (x - y * inject_Z (Qfloor (x / y)))%Q.
Definition sleep_delay (now start_time : Q) : Q := (120 - py_mod (now - start_time) 60)%Q.

Section Loop.
Variable w : world.

(** A call to the outside world that raises when [w_ok] says so. *)
Definition ext_call (mk : bool -> event) : M unit :=
  fun t => let ok := w_ok w (length t) in
           ((if ok then POk tt else PExn IOError), (t ++ [mk ok])%list).

(** [read_sensor(dht_sensor, dht_pin, input_time)]; the [else] branch
    prints and returns [None]. *)
Definition read_sensor (dht_pin : option string) (input_time : tm)
  : M (option sensor_list) :=
  fun t =>
    let t' := (t ++ [ERead dht_pin])%list in
    match w_read w (length t) dht_pin with
    | PExn e => (PExn e, t')
    | POk (Some humidity, Some temp_c) =>
        let temp_f := to_fahrenheit temp_c in
        (POk (Some (mk_sensor_list (tm_time input_time) temp_c temp_f humidity)), t')
    | POk _ => (POk None, t')
    end.

(** [append_file(input_file_handle, input_list, input_time, dht_pin)]: the
    attribute [input_file_handle.write] is looked up before the argument
    is built. *)
Definition append_file (input_file_handle : option string)
  (input_list : option sensor_list) (input_time : tm) (dht_pin : option string)
  : M unit :=
  try_all (
    h <- (match input_file_handle with
          | None => raise AttributeError | Some h => ret h end) ;;
    line <- (match input_list with
             | None => raise TypeError
             | Some l => ret (log_line input_time l dht_pin) end) ;;
    ext_call (EWrite h line) ;;;
    ext_call (EFlush h)).

(** [append_google_sheet(input_list, sheet_key, input_time)]. *)
Definition append_google_sheet (input_list : option sensor_list)
  (sheet_key : option string) (input_time : tm) : M unit :=
  try_all (
    ext_call EAuth ;;;
    ext_call (EOpenSheet sheet_key) ;;;
    append_list <- (match input_list with
                    | None => raise TypeError
                    | Some l => ret (sheet_row input_time l) end) ;;
    ext_call (EAppendRow sheet_key append_list)).

(** One sensor of the [for] loop of [main]. *)
Definition sensor_step (f : option string) (read_time : tm)
  (sensor_dict : dict string) : M unit :=
  let dht_pin := dict_get sensor_dict "pin" in
  sensor_output <- read_sensor dht_pin read_time ;;
  append_file f sensor_output read_time dht_pin ;;;
  append_google_sheet sensor_output (dict_get sensor_dict "id") read_time.

(** [for sensor_location, sensor_dict in sheet_ids.items(): ...]. *)
Fixpoint run_cycle (f : option string) (read_time : tm)
  (sheet_ids : dict (dict string)) : M unit :=
  match sheet_ids with
  | [] => ret tt
  | (_, sensor_dict) :: rest =>
      sensor_step f read_time sensor_dict ;;; run_cycle f read_time rest
  end.

Definition sleep (secs : Q) : M unit :=
  fun t => (POk tt, (t ++ [ESleep secs])%list).

(** The first [n] iterations of [while True:], starting at cycle [k]. *)
Fixpoint main_loop (n k : nat) (f : option string)
  (sheet_ids : dict (dict string)) : M unit :=
  match n with
  | 0 => ret tt
  | S n' =>
      let read_time := w_localtime w k in
      run_cycle f read_time sheet_ids ;;;
      sleep (sleep_delay (w_time w k) (w_start w)) ;;;
      main_loop n' (S k) f sheet_ids
  end.

End Loop.

(* ------------------------------------------------------------------ *)
(** ** Concrete inputs used by the examples *)

Definition c21_4 : float := fdiv (float_of_Z 214) (float_of_Z 10).
Definition h55_2 : float := fdiv (float_of_Z 552) (float_of_Z 10).
Definition c0_5 : float := fdiv (float_of_Z 1) (float_of_Z 2).

Definition rt0 : tm := mk_tm "2021-05-01" "12:00:00".

(** Every external call succeeds, every read gives [(55.2, 21.4)], each
    cycle ends 5 s after a multiple of 120 s past the start. *)
Definition world_ok : world :=
  mk_world 0 (fun _ => rt0) (fun k => inject_Z (Z.of_nat (120 * k) + 5))
    (fun _ _ => POk (Some h55_2, Some c21_4)) (fun _ => true).

(** The sensor reads fail ([read_retry] gives [(None, None)]). *)
Definition world_no_data : world :=
  mk_world 0 (fun _ => rt0) (fun k => inject_Z (Z.of_nat (120 * k) + 5))
    (fun _ _ => POk (None, None)) (fun _ => true).

Definition livingroom : dict string :=
  [("id", "ABC123"); ("pin", "4"); ("name", "home_livingroom")].

Definition reading_21_4 : sensor_list :=
  mk_sensor_list "12:00:00" c21_4 (to_fahrenheit c21_4) h55_2.

(* ------------------------------------------------------------------ *)
(** ** Proof tools *)

Create HintDb pyeval.

(** Split on the outcome of every external call in the goal. *)
Ltac split_calls :=
  repeat match goal with
         | |- context [w_ok ?w ?i] => destruct (w_ok w i)
         end.

Ltac run_model :=
  unfold append_google_sheet, append_file, sensor_step, try_all, bind, ret,
    raise, ext_call, read_sensor;
  split_calls; cbn beta iota zeta; rewrite <- ?app_assoc; cbn [app].

Definition is_write (e : event) : bool :=
  match e with EWrite _ _ _ => true | _ => false end.
Definition is_append_row (e : event) : bool :=
  match e with EAppendRow _ _ _ => true | _ => false end.
Definition is_sleep (e : event) : bool :=
  match e with ESleep _ => true | _ => false end.

Lemma append_google_sheet_none : forall w key rt t,
  exists d, append_google_sheet w None key rt t = (POk tt, (t ++ d)%list) /\
            forallb (fun e => negb (is_write e || is_append_row e)) d = true.
Proof.
  intros w key rt t. unfold append_google_sheet. run_model;
    eexists; split; reflexivity.
Qed.

Lemma append_file_no_data : forall w f rt pin t,
  append_file w f None rt pin t = (POk tt, t).
Proof. intros w [h|] rt pin t; reflexivity. Qed.

Lemma read_sensor_no_data : forall w pin rt t hum tc,
  w_read w (length t) pin = POk (hum, tc) -> hum = None \/ tc = None ->
  read_sensor w pin rt t = (POk None, (t ++ [ERead pin])%list).
Proof.
  intros w pin rt t hum tc H [-> | ->]; unfold read_sensor; rewrite H;
    [reflexivity | destruct hum; reflexivity].
Qed.

Lemma read_sensor_data : forall w pin rt t hum tc,
  w_read w (length t) pin = POk (Some hum, Some tc) ->
  read_sensor w pin rt t =
  (POk (Some (mk_sensor_list (tm_time rt) tc (to_fahrenheit tc) hum)),
   (t ++ [ERead pin])%list).
Proof. intros w pin rt t hum tc H; unfold read_sensor; rewrite H; reflexivity. Qed.

Lemma run_cycle_cons : forall w f rt loc sensor_dict rest t t',
  sensor_step w f rt sensor_dict t = (POk tt, t') ->
  run_cycle w f rt ((loc, sensor_dict) :: rest) t = run_cycle w f rt rest t'.
Proof. intros w f rt loc sd rest t t' H; cbn [run_cycle]; unfold bind at 1; rewrite H; reflexivity. Qed.

(* ------------------------------------------------------------------ *)
(** ** C1: the row appended to the sheet *)

(** C1 (as stated, refuted): the row appended for the spec's reading
    (21.4 C, 55.2 %) has five values, the time of day among them, not
    four. *)
Lemma C1_row_not_four_values :
  exists row,
    In (EAppendRow (Some "ABC123") row true)
       (snd (append_google_sheet world_ok (Some reading_21_4) (Some "ABC123") rt0 []))
    /\ length row <> 4 /\ nth 1 row (PStr "") = PStr "12:00:00".
Proof.
  eexists; split; [cbv [append_google_sheet try_all bind ext_call ret snd world_ok w_ok];
                   cbn; right; right; left; reflexivity | ].
  split; [cbn; discriminate | reflexivity].
Qed.

(** C1 (amended): for a successful reading, [append_google_sheet] never
    raises; it authenticates, opens [sheet1] of the spreadsheet with the
    configured key, and makes one [append_row] call whose row holds five
    values: the date, the time of day, and [round(_, 1)] of the Celsius
    temperature, the Fahrenheit temperature and the humidity.  When
    authentication or opening fails, no [append_row] call is made. *)
Theorem C1_sheet_row_five_values : forall w l key rt t,
  let row := [PStr (tm_date rt); PStr (sl_time l); PFloat (round1 (sl_temp_c l));
              PFloat (round1 (sl_temp_f l)); PFloat (round1 (sl_humidity l))] in
  exists d,
    append_google_sheet w (Some l) key rt t = (POk tt, (t ++ d)%list) /\
    (d = [EAuth false] \/ d = [EAuth true; EOpenSheet key false] \/
     exists ok, d = [EAuth true; EOpenSheet key true; EAppendRow key row ok]).
Proof.
  intros w l key rt t row. run_model; eexists; split; try reflexivity; subst row;
    first [ left; reflexivity | right; left; reflexivity
          | right; right; eexists; reflexivity ].
Qed.

(* ------------------------------------------------------------------ *)
(** ** C3: a read without data *)

(** C3: when the read of a sensor gives no humidity or no temperature,
    that sensor's step writes no log line and makes no [append_row] call
    (it still calls [service_account] and [open_by_key]), returns
    normally, and the loop goes on with the next sensor. *)
Theorem C3_no_data_no_writes : forall w f rt sensor_dict hum tc t,
  w_read w (length t) (dict_get sensor_dict "pin") = POk (hum, tc) ->
  hum = None \/ tc = None ->
  exists d,
    sensor_step w f rt sensor_dict t =
      (POk tt, (t ++ ERead (dict_get sensor_dict "pin") :: d)%list) /\
    forallb (fun e => negb (is_write e || is_append_row e)) d = true /\
    forall loc rest,
      run_cycle w f rt ((loc, sensor_dict) :: rest) t =
      run_cycle w f rt rest (t ++ ERead (dict_get sensor_dict "pin") :: d)%list.
Proof.
  intros w f rt sd hum tc t Hread Hnone.
  pose proof (read_sensor_no_data w _ rt t hum tc Hread Hnone) as Hr.
  destruct (append_google_sheet_none w (dict_get sd "id") rt
              (t ++ [ERead (dict_get sd "pin")])%list) as [d [Hg Hd]].
  assert (Hs : sensor_step w f rt sd t =
               (POk tt, (t ++ ERead (dict_get sd "pin") :: d)%list)).
  { unfold sensor_step, bind at 1. rewrite Hr.
    unfold bind. rewrite append_file_no_data, Hg, <- app_assoc. reflexivity. }
  exists d. split; [exact Hs | split].
  - exact Hd.
  - intros loc rest. apply run_cycle_cons. exact Hs.
Qed.

Lemma C3_no_data_no_writes_witness :
  w_read world_no_data (length (@nil event)) (dict_get livingroom "pin") = POk (None, None) /\
  exists d,
    sensor_step world_no_data (Some "log") rt0 livingroom [] =
      (POk tt, ([] ++ ERead (dict_get livingroom "pin") :: d)%list) /\
    forallb (fun e => negb (is_write e || is_append_row e)) d = true /\
    forall loc rest,
      run_cycle world_no_data (Some "log") rt0 ((loc, livingroom) :: rest) [] =
      run_cycle world_no_data (Some "log") rt0 rest
        ([] ++ ERead (dict_get livingroom "pin") :: d)%list.
Proof.
  split; [reflexivity |].
  apply (C3_no_data_no_writes world_no_data (Some "log") rt0 livingroom None None []);
    [reflexivity | left; reflexivity].
Defined.

(* ------------------------------------------------------------------ *)
(** ** The two write paths of a cycle *)

(** No call of [Adafruit_DHT.read_retry] made in the run raises. *)
Definition reads_no_raise (w : world) : Prop :=
  forall i pin e, w_read w i pin <> PExn e.

Definition no_write (d : trace) : bool := forallb (fun e => negb (is_write e)) d.

(** What the local path leaves in the trace: the [write] of the line
    (followed by a [flush] when it succeeded) on an open handle, nothing
    when the handle is [None]. *)
Definition local_part (f : option string) (line : string) (dl : trace) : Prop :=
  match f with
  | Some p => exists ok rest, dl = EWrite p line ok :: rest
  | None => dl = []
  end.

(** What the remote path leaves after [service_account()] (outcome [ok])
    for a row: nothing when it failed; otherwise [open_by_key(key).sheet1],
    and when that succeeded one [append_row] of the row. *)
Definition remote_part (key : option string) (row : list pyval) (ok : bool)
  (dr : trace) : Prop :=
  (ok = false /\ dr = []) \/
  (ok = true /\ (dr = [EOpenSheet key false] \/
                 exists ok', dr = [EOpenSheet key true; EAppendRow key row ok'])).

(** The trace of one sensor of a cycle, read when the trace has length
    [i]: the read, the local path, then the remote path, which always
    starts with [service_account()].  When that read gave data, the local
    path is the [write] of the log line on an open handle and the remote
    path goes as far as the gspread calls succeed, up to the [append_row]
    of the row; when it gave no data, nothing is written locally.  The
    remote path never writes to the log. *)
Definition sensor_seg (w : world) (f : option string) (rt : tm)
  (sensor_dict : dict string) (i : nat) (seg : trace) : Prop :=
  let pin := dict_get sensor_dict "pin" in
  exists dl ok dr,
    seg = ERead pin :: (dl ++ EAuth ok :: dr)%list /\ no_write dr = true /\
    match w_read w i pin with
    | POk (Some hum, Some tc) =>
        let l := mk_sensor_list (tm_time rt) tc (to_fahrenheit tc) hum in
        local_part f (log_line rt l pin) dl /\
        remote_part (dict_get sensor_dict "id") (sheet_row rt l) ok dr
    | _ => dl = []
    end.

(** The trace [d] of a cycle started on the trace [t]: one segment per
    sensor, in the order of [sheet_ids]. *)
Fixpoint cycle_segs (w : world) (f : option string) (rt : tm)
  (sheet_ids : dict (dict string)) (t d : trace) : Prop :=
  match sheet_ids with
  | [] => d = []
  | (_, sensor_dict) :: rest =>
      exists seg d', d = (seg ++ d')%list /\
        sensor_seg w f rt sensor_dict (length t) seg /\
        cycle_segs w f rt rest (t ++ seg)%list d'
  end.

(** Reads: sensor 5 gives nothing, every other sensor gives (55.2, 21.4);
    every other file or gspread call fails. *)
Definition world_mixed : world :=
  mk_world 0 (fun _ => rt0) (fun k => inject_Z (Z.of_nat (120 * k) + 5))
    (fun _ pin => match pin with
                  | Some p => if String.eqb p "5" then POk (None, None)
                              else POk (Some h55_2, Some c21_4)
                  | None => POk (None, None)
                  end)
    (fun i => Nat.even i).

Definition sensors_mixed : dict (dict string) :=
  [("home_livingroom", livingroom);
   ("home_outside", [("id", "DEF456"); ("pin", "5")]);
   ("home_garage", [("id", "GHI789"); ("pin", "6")])].

Lemma append_file_never_raises : forall w f x rt pin t,
  fst (append_file w f x rt pin t) = POk tt.
Proof.
  intros w [h|] [l|] rt pin t; run_model; reflexivity.
Qed.

Lemma append_google_sheet_never_raises : forall w x key rt t,
  fst (append_google_sheet w x key rt t) = POk tt.
Proof.
  intros w [l|] key rt t; run_model; reflexivity.
Qed.

Lemma append_file_local : forall w f l rt pin t,
  exists dl, append_file w f (Some l) rt pin t = (POk tt, (t ++ dl)%list) /\
             local_part f (log_line rt l pin) dl.
Proof.
  intros w [h|] l rt pin t; run_model; eexists; split;
    try (rewrite app_nil_r; reflexivity); try reflexivity;
    cbn [local_part]; try reflexivity; do 2 eexists; reflexivity.
Qed.

Lemma append_google_sheet_auth_first : forall w x key rt t,
  exists ok dr, append_google_sheet w x key rt t = (POk tt, (t ++ EAuth ok :: dr)%list) /\
                no_write dr = true.
Proof.
  intros w [l|] key rt t; run_model; do 2 eexists; split; reflexivity.
Qed.

Lemma append_google_sheet_row : forall w l key rt t,
  exists ok dr,
    append_google_sheet w (Some l) key rt t = (POk tt, (t ++ EAuth ok :: dr)%list) /\
    no_write dr = true /\ remote_part key (sheet_row rt l) ok dr.
Proof.
  intros w l key rt t; run_model; do 2 eexists;
    (split; [reflexivity | split; [reflexivity |]]); unfold remote_part;
    first [ left; split; reflexivity
          | right; split; [reflexivity |];
            first [left; reflexivity | right; eexists; reflexivity] ].
Qed.

Lemma sensor_step_no_data : forall w f rt sd t hum tc,
  w_read w (length t) (dict_get sd "pin") = POk (hum, tc) -> hum = None \/ tc = None ->
  exists ok dr,
    sensor_step w f rt sd t =
      (POk tt, (t ++ ERead (dict_get sd "pin") :: EAuth ok :: dr)%list) /\
    no_write dr = true.
Proof.
  intros w f rt sd t hum tc Hread Hnone.
  pose proof (read_sensor_no_data w _ rt t hum tc Hread Hnone) as Hr.
  destruct (append_google_sheet_auth_first w None (dict_get sd "id") rt
              (t ++ [ERead (dict_get sd "pin")])%list) as [ok [dr [Hg Hd]]].
  exists ok, dr. split; [| exact Hd].
  unfold sensor_step, bind at 1. rewrite Hr.
  unfold bind. rewrite append_file_no_data, Hg, <- app_assoc. reflexivity.
Qed.

Lemma sensor_step_seg : forall w f rt sd t,
  reads_no_raise w ->
  exists seg, sensor_step w f rt sd t = (POk tt, (t ++ seg)%list) /\
              sensor_seg w f rt sd (length t) seg.
Proof.
  intros w f rt sd t Hw. unfold sensor_seg.
  destruct (w_read w (length t) (dict_get sd "pin")) as [[[hum|] [tc|]] | e] eqn:Hread.
  - pose proof (read_sensor_data w _ rt t hum tc Hread) as Hr.
    set (l := mk_sensor_list (tm_time rt) tc (to_fahrenheit tc) hum) in Hr.
    destruct (append_file_local w f l rt (dict_get sd "pin")
                (t ++ [ERead (dict_get sd "pin")])%list) as [dl [Ha Hl]].
    destruct (append_google_sheet_row w l (dict_get sd "id") rt
                ((t ++ [ERead (dict_get sd "pin")]) ++ dl)%list) as [ok [dr [Hg [Hd Hrp]]]].
    exists (ERead (dict_get sd "pin") :: (dl ++ EAuth ok :: dr))%list. split.
    + unfold sensor_step, bind at 1. rewrite Hr. unfold bind. rewrite Ha, Hg.
      rewrite <- !app_assoc. reflexivity.
    + exists dl, ok, dr. auto.
  - destruct (sensor_step_no_data w f rt sd t _ _ Hread (or_intror eq_refl)) as [ok [dr [Hs Hd]]].
    exists (ERead (dict_get sd "pin") :: EAuth ok :: dr). split; [exact Hs |].
    exists [], ok, dr. auto.
  - destruct (sensor_step_no_data w f rt sd t _ _ Hread (or_introl eq_refl)) as [ok [dr [Hs Hd]]].
    exists (ERead (dict_get sd "pin") :: EAuth ok :: dr). split; [exact Hs |].
    exists [], ok, dr. auto.
  - destruct (sensor_step_no_data w f rt sd t _ _ Hread (or_introl eq_refl)) as [ok [dr [Hs Hd]]].
    exists (ERead (dict_get sd "pin") :: EAuth ok :: dr). split; [exact Hs |].
    exists [], ok, dr. auto.
  - exfalso. exact (Hw _ _ _ Hread).
Qed.

Lemma run_cycle_segs : forall w f rt sheet_ids t,
  reads_no_raise w ->
  exists d, run_cycle w f rt sheet_ids t = (POk tt, (t ++ d)%list) /\
            cycle_segs w f rt sheet_ids t d.
Proof.
  intros w f rt sheet_ids. induction sheet_ids as [|[loc sd] rest IH]; intros t Hw.
  - exists []. rewrite app_nil_r. split; reflexivity.
  - destruct (sensor_step_seg w f rt sd t Hw) as [seg [Hs Hseg]].
    destruct (IH (t ++ seg)%list Hw) as [d' [Hc Hd']].
    exists (seg ++ d')%list. split.
    + rewrite (run_cycle_cons _ _ _ _ _ _ _ _ Hs), Hc, <- app_assoc. reflexivity.
    + exists seg, d'. auto.
Qed.

Lemma main_loop_runs : forall w f sheet_ids,
  reads_no_raise w ->
  forall n k t, fst (main_loop w n k f sheet_ids t) = POk tt.
Proof.
  intros w f sheet_ids Hw n. induction n as [|n IH]; intros k t; [reflexivity |].
  cbn [main_loop]. unfold bind at 1.
  destruct (run_cycle_segs w f (w_localtime w k) sheet_ids t Hw) as [d [Hc _]].
  rewrite Hc. unfold bind, sleep. apply IH.
Qed.

Lemma cycle_segs_none_no_write : forall w rt sheet_ids t d,
  cycle_segs w None rt sheet_ids t d -> no_write d = true.
Proof.
  intros w rt sheet_ids. induction sheet_ids as [|[loc sd] rest IH]; intros t d H.
  - cbn in H. subst d. reflexivity.
  - destruct H as [seg [d' [-> [Hseg Hrest]]]].
    destruct Hseg as [dl [ok [dr [-> [Hd Hm]]]]].
    assert (Hdl : dl = []).
    { destruct (w_read w (length t) (dict_get sd "pin")) as [[[h|] [c|]]|e];
        first [exact Hm | exact (proj1 Hm)]. }
    subst dl. unfold no_write in *. rewrite forallb_app. cbn [app forallb is_write negb andb].
    rewrite Hd. exact (IH _ _ Hrest).
Qed.

Lemma world_mixed_no_raise : reads_no_raise world_mixed.
Proof. intros i [p|] e; cbn; [destruct (String.eqb p "5") |]; discriminate. Qed.

(** C2: as long as the sensor driver does not raise, and whatever the
    outcome of every file write, flush and gspread call ([w_ok] is
    arbitrary), both write functions return normally; in every cycle each
    sensor is read, and each sensor whose read gave data gets its log
    write and then its remote attempt, up to the [append_row] as far as
    the gspread calls succeed, however the other sensors' reads and
    writes went; the cycle completes and the poll loop runs every
    iteration. *)
Theorem C2_write_paths_independent : forall w p rt sheet_ids t,
  reads_no_raise w ->
  (forall f x pin t', fst (append_file w f x rt pin t') = POk tt) /\
  (forall x key t', fst (append_google_sheet w x key rt t') = POk tt) /\
  (exists d, run_cycle w (Some p) rt sheet_ids t = (POk tt, (t ++ d)%list) /\
             cycle_segs w (Some p) rt sheet_ids t d) /\
  (forall n k, fst (main_loop w n k (Some p) sheet_ids t) = POk tt).
Proof.
  intros w p rt sheet_ids t Hw. split; [| split; [| split]].
  - intros; apply append_file_never_raises.
  - intros; apply append_google_sheet_never_raises.
  - apply run_cycle_segs; exact Hw.
  - intros n k; apply main_loop_runs; exact Hw.
Qed.

Lemma C2_write_paths_independent_witness :
  reads_no_raise world_mixed /\
  ((forall f x pin t', fst (append_file world_mixed f x rt0 pin t') = POk tt) /\
   (forall x key t', fst (append_google_sheet world_mixed x key rt0 t') = POk tt) /\
   (exists d, run_cycle world_mixed (Some "log") rt0 sensors_mixed [] =
                (POk tt, ([] ++ d)%list) /\
              cycle_segs world_mixed (Some "log") rt0 sensors_mixed [] d) /\
   (forall n k, fst (main_loop world_mixed n k (Some "log") sensors_mixed []) = POk tt)).
Proof.
  split; [exact world_mixed_no_raise |].
  apply (C2_write_paths_independent world_mixed "log" rt0 sensors_mixed []).
  exact world_mixed_no_raise.
Defined.

(* ------------------------------------------------------------------ *)
(** ** C10: an output file that cannot be opened *)

(** Where the script lives on the Raspberry Pi, next to its [url]
    directory; [os.path.realpath(__file__)] is the script file itself. *)
Definition script_install : string := "/home/pi/read_sensor_data.py".

Definition fs_install : fs :=
  [("/home", NDir); ("/home/pi", NDir);
   ("/home/pi/read_sensor_data.py", NFile "import os");
   ("/home/pi/url", NDir);
   ("/home/pi/url/home_livingroom.txt",
    NFile ("id" ++ TAB ++ "ABC123" ++ CRLF ++ "pin" ++ TAB ++ "4" ++ CRLF
           ++ "name" ++ TAB ++ "home_livingroom" ++ CRLF))].

(** [open(path, 'a+')] fails: the path is a directory, or its parent is
    not a directory. *)
Definition open_fails (f : fs) (path : string) : bool :=
  match lookup f path with
  | Some NDir => true
  | Some (NFile _) => false
  | None => let (head, _) := pysplit path in negb (String.eqb head "" || is_dir f head)
  end.

(** C10 (as stated, refuted): at the install location, opening the log
    does fail, but [open_output_file] does not return [None]: the error
    comes from [os.makedirs], which is outside the [try], so it
    propagates and [main] stops before the poll loop. *)
Lemma C10_makedirs_error_propagates :
  open_output_file fs_install script_install = PExn NotADirectoryError /\
  (forall f', open_output_file fs_install script_install <> POk (f', None)) /\
  startup fs_install script_install = PExn NotADirectoryError.
Proof.
  split; [reflexivity | split; [intros f' H; discriminate H | reflexivity]].
Qed.

(** C10 (amended): a failure of [open] itself is suppressed and gives the
    handle [None]; [open_output_file] raises only the error of
    [os.makedirs] (outside the [try]).  With the handle [None], and as
    long as the sensor driver does not raise, every cycle writes no log
    line (each [append_file] fails inside its catch-all) while every
    sensor is read and each one with data still gets its remote attempt,
    whatever the other sensors gave; the poll loop runs every
    iteration. *)
Theorem C10_open_failure_suppressed : forall f path w rt sheet_ids t,
  open_fails f path = true ->
  reads_no_raise w ->
  open_output_try f path = (f, None) /\
  (forall f0 script e, open_output_file f0 script = PExn e ->
                       makedirs f0 (output_dir_of script) = PExn e) /\
  (exists d,
     run_cycle w None rt sheet_ids t = (POk tt, (t ++ d)%list) /\
     cycle_segs w None rt sheet_ids t d /\
     no_write d = true) /\
  (forall n k, fst (main_loop w n k None sheet_ids t) = POk tt).
Proof.
  intros f path w rt sheet_ids t Hopen Hw. split; [| split; [| split]].
  - unfold open_fails, open_output_try in *.
    destruct (lookup f path) as [[c|]|]; try discriminate; [reflexivity |].
    destruct (pysplit path) as [head tail].
    destruct (String.eqb head "" || is_dir f head); [discriminate | reflexivity].
  - intros f0 script e H. unfold open_output_file in H.
    destruct (negb (exists_path f0 (output_dir_of script)));
      [| cbn [res_bind] in H; discriminate].
    destruct (makedirs f0 (output_dir_of script)); cbn [res_bind] in H;
      [discriminate | injection H as ->; reflexivity].
  - destruct (run_cycle_segs w None rt sheet_ids t Hw) as [d [Hc Hs]].
    exists d. split; [exact Hc | split; [exact Hs |]].
    exact (cycle_segs_none_no_write w rt sheet_ids t d Hs).
  - intros n k; apply main_loop_runs; exact Hw.
Qed.

Definition fs_log_is_dir : fs :=
  [("out", NDir); ("out/sensor_output.csv", NDir)].

Lemma C10_open_failure_suppressed_witness :
  open_fails fs_log_is_dir "out/sensor_output.csv" = true /\
  reads_no_raise world_mixed /\
  (open_output_try fs_log_is_dir "out/sensor_output.csv" = (fs_log_is_dir, None) /\
   (forall f0 script e, open_output_file f0 script = PExn e ->
                        makedirs f0 (output_dir_of script) = PExn e) /\
   (exists d,
      run_cycle world_mixed None rt0 sensors_mixed [] = (POk tt, ([] ++ d)%list) /\
      cycle_segs world_mixed None rt0 sensors_mixed [] d /\
      no_write d = true) /\
   (forall n k, fst (main_loop world_mixed n k None sensors_mixed []) = POk tt)).
Proof.
  split; [reflexivity | split; [exact world_mixed_no_raise |]].
  apply (C10_open_failure_suppressed fs_log_is_dir "out/sensor_output.csv" world_mixed rt0
           sensors_mixed []);
    [reflexivity | exact world_mixed_no_raise].
Defined.

(* ------------------------------------------------------------------ *)
(** ** C7: the sleep between cycles *)

(** A computation that only appends events other than [ESleep]. *)
Definition no_sleep {A} (m : M A) : Prop :=
  forall t, exists d, snd (m t) = (t ++ d)%list /\ filter is_sleep d = [].

Lemma ret_no_sleep : forall A (a : A), no_sleep (ret a).
Proof. intros A a t. exists []. split; [rewrite app_nil_r |]; reflexivity. Qed.

Lemma raise_no_sleep : forall A e, no_sleep (@raise A e).
Proof. intros A e t. exists []. split; [rewrite app_nil_r |]; reflexivity. Qed.

Lemma bind_no_sleep : forall A B (m : M A) (k : A -> M B),
  no_sleep m -> (forall a, no_sleep (k a)) -> no_sleep (bind m k).
Proof.
  intros A B m k Hm Hk t. unfold bind.
  destruct (Hm t) as [d1 [H1 S1]]. destruct (m t) as [[a|e] t1]; cbn in H1; subst t1.
  - destruct (Hk a (t ++ d1)%list) as [d2 [H2 S2]]. exists (d1 ++ d2)%list.
    rewrite H2, app_assoc, filter_app, S1, S2. split; reflexivity.
  - exists d1. auto.
Qed.

Lemma try_all_no_sleep : forall (m : M unit), no_sleep m -> no_sleep (try_all m).
Proof.
  intros m Hm t. unfold try_all. destruct (Hm t) as [d [H S]].
  exists d. destruct (m t) as [[[]|e] t1]; cbn in *; subst; auto.
Qed.

Lemma ext_call_no_sleep : forall w mk,
  (forall b, is_sleep (mk b) = false) -> no_sleep (ext_call w mk).
Proof.
  intros w mk Hmk t. unfold ext_call. exists [mk (w_ok w (length t))].
  cbn. rewrite Hmk. split; reflexivity.
Qed.

Lemma read_sensor_no_sleep : forall w pin rt, no_sleep (read_sensor w pin rt).
Proof.
  intros w pin rt t. exists [ERead pin]. unfold read_sensor.
  destruct (w_read w (length t) pin) as [[[h|] [c|]]|e]; split; reflexivity.
Qed.

#[local] Hint Resolve ret_no_sleep raise_no_sleep try_all_no_sleep
  ext_call_no_sleep read_sensor_no_sleep : pyeval.
#[local] Hint Extern 1 (forall b, is_sleep _ = false) => intro; reflexivity : pyeval.
#[local] Hint Extern 2 (no_sleep (bind _ _)) => apply bind_no_sleep; intros : pyeval.
#[local] Hint Extern 3 (no_sleep (match ?x with _ => _ end)) => destruct x : pyeval.

Lemma run_cycle_no_sleep : forall w f rt sheet_ids, no_sleep (run_cycle w f rt sheet_ids).
Proof.
  intros w f rt sheet_ids. induction sheet_ids as [|[loc sd] rest IH]; cbn [run_cycle].
  - auto with pyeval.
  - apply bind_no_sleep; [| intros; exact IH].
    unfold sensor_step, append_file, append_google_sheet. auto 10 with pyeval.
Qed.

(** C7: after each cycle, the loop sleeps
    [120 - ((time.time() - start_time) % 60)] seconds, with Python's [%]
    (a result in [[0, 60)]): the sleeps of a run are exactly these delays
    for the cycles that ran, in order; when the work of a cycle ends 5 s
    after the start, the delay is 115 s. *)
Theorem C7_sleep_delay : forall w n k f sheet_ids t,
  (exists m d,
     m <= n /\ snd (main_loop w n k f sheet_ids t) = (t ++ d)%list /\
     filter is_sleep d =
       map (fun j => ESleep (120 - py_mod (w_time w (k + j) - w_start w) 60)%Q)
         (seq 0 m)) /\
  (forall T0 : Q, (120 - py_mod ((T0 + 5) - T0) 60 == 115)%Q).
Proof.
  intros w n k f sheet_ids t. split.
  - revert k t. induction n as [|n IH]; intros k t.
    + exists 0, []. split; [lia | split; [rewrite app_nil_r; reflexivity | reflexivity]].
    + cbn [main_loop]. unfold bind at 1.
      destruct (run_cycle_no_sleep w f (w_localtime w k) sheet_ids t) as [d1 [H1 S1]].
      destruct (run_cycle w f (w_localtime w k) sheet_ids t) as [[u|e] t1];
        cbn in H1; subst t1.
      * unfold bind, sleep.
        destruct (IH (S k) ((t ++ d1) ++ [ESleep (sleep_delay (w_time w k) (w_start w))])%list)
          as [m [d2 [Hm [H2 S2]]]].
        exists (S m), (d1 ++ ESleep (sleep_delay (w_time w k) (w_start w)) :: d2)%list.
        split; [lia | split].
        -- rewrite H2, <- !app_assoc. reflexivity.
        -- rewrite filter_app, S1. cbn. rewrite S2, Nat.add_0_r.
           unfold sleep_delay. f_equal. rewrite <- seq_shift, map_map.
           apply map_ext. intros j. rewrite Nat.add_succ_r. reflexivity.
      * exists 0, d1. split; [lia | split; [reflexivity | exact S1]].
  - intros T0. unfold py_mod.
    assert (H5 : (T0 + 5 - T0 == 5)%Q) by ring.
    assert (HF : Qfloor ((T0 + 5 - T0) / 60) = 0%Z).
    { rewrite (Qfloor_comp _ (5 / 60)); [reflexivity |].
      apply Qdiv_comp; [exact H5 | reflexivity]. }
    rewrite HF. ring.
Qed.

(* ------------------------------------------------------------------ *)
(** ** C8: the Fahrenheit conversion *)

(** Every read gives 55.2 % and 0.5 C (the driver reports tenths). *)
Definition world_half : world :=
  mk_world 0 (fun _ => rt0) (fun k => inject_Z (Z.of_nat (120 * k) + 5))
    (fun _ _ => POk (Some h55_2, Some c0_5)) (fun _ => true).

(** C8 (as stated, refuted): for a reading of 0.5 C, the [temp_f] that
    [read_sensor] returns is a binary64 number whose exact value is not
    [0.5 * 9/5 + 32 = 32.9]. *)
Lemma C8_fahrenheit_not_exact :
  exists l,
    read_sensor world_half (Some "4") rt0 [] = (POk (Some l), [ERead (Some "4")]) /\
    exists c v,
      float_to_Q (sl_temp_c l) = Some c /\ (c == 1 # 2)%Q /\
      float_to_Q (sl_temp_f l) = Some v /\ ~ (v == c * 9 / 5 + 32)%Q.
Proof.
  eexists. split; [reflexivity |].
  do 2 eexists. split; [vm_compute; reflexivity |]. split; [vm_compute; reflexivity |].
  split; [vm_compute; reflexivity |].
  intro H. vm_compute in H. discriminate H.
Qed.

(** C8 (amended): on a successful read, [temp_f] is the binary64 result
    of [((temp_c * 9) / 5) + 32], each operation rounded to nearest-even,
    and [temp_c] and the humidity are the driver's values unchanged. *)
Theorem C8_fahrenheit_binary64 : forall w pin rt t hum tc,
  w_read w (length t) pin = POk (Some hum, Some tc) ->
  exists l,
    read_sensor w pin rt t = (POk (Some l), (t ++ [ERead pin])%list) /\
    sl_temp_c l = tc /\ sl_humidity l = hum /\ sl_time l = tm_time rt /\
    sl_temp_f l =
      SFadd prec emax
        (SFdiv prec emax (SFmul prec emax tc (float_of_Z 9)) (float_of_Z 5))
        (float_of_Z 32).
Proof.
  intros w pin rt t hum tc H. eexists.
  split; [apply (read_sensor_data w pin rt t hum tc H) |].
  repeat split; reflexivity.
Qed.

Lemma C8_fahrenheit_binary64_witness :
  w_read world_half (length (@nil event)) (Some "4") = POk (Some h55_2, Some c0_5) /\
  exists l,
    read_sensor world_half (Some "4") rt0 [] = (POk (Some l), ([] ++ [ERead (Some "4")])%list) /\
    sl_temp_c l = c0_5 /\ sl_humidity l = h55_2 /\ sl_time l = tm_time rt0 /\
    sl_temp_f l =
      SFadd prec emax
        (SFdiv prec emax (SFmul prec emax c0_5 (float_of_Z 9)) (float_of_Z 5))
        (float_of_Z 32).
Proof.
  split; [reflexivity |].
  apply (C8_fahrenheit_binary64 world_half (Some "4") rt0 [] h55_2 c0_5). reflexivity.
Defined.

(* ------------------------------------------------------------------ *)
(** ** Dictionaries and the configuration loader *)

Lemma dict_get_set : forall V (d : dict V) k v k',
  dict_get (dict_set d k v) k' = if String.eqb k' k then Some v else dict_get d k'.
Proof.
  intros V d k v k'. induction d as [|[k0 v0] d IH]; cbn.
  - reflexivity.
  - destruct (String.eqb k k0) eqn:E; cbn.
    + apply String.eqb_eq in E; subst k0. destruct (String.eqb k' k); reflexivity.
    + rewrite IH. destruct (String.eqb k' k) eqn:E1; [| reflexivity].
      apply String.eqb_eq in E1; subst k'. rewrite E. reflexivity.
Qed.

Lemma url_loop_preserve : forall f s paths acc m k,
  url_loop f s paths acc = POk m ->
  Forall (fun q => file_string_of q <> k) paths ->
  dict_get m k = dict_get acc k.
Proof.
  intros f s paths. induction paths as [|q rest IH]; intros acc m k H Hf.
  - cbn in H. injection H as <-. reflexivity.
  - inversion Hf as [|? ? Hq Hrest]; subst. cbn in H.
    destruct (matches s (file_string_of q)).
    + destruct (read_text f q) as [c|]; cbn in H; [| discriminate].
      destruct (parse_url_file c) as [v|]; cbn in H; [| discriminate].
      rewrite (IH _ _ _ H Hrest), dict_get_set.
      destruct (String.eqb k (file_string_of q)) eqn:E; [| reflexivity].
      apply String.eqb_eq in E. congruence.
    + exact (IH _ _ _ H Hrest).
Qed.

Lemma url_loop_last : forall f s l1 p l2 acc m c v,
  url_loop f s (l1 ++ p :: l2)%list acc = POk m ->
  matches s (file_string_of p) = true ->
  Forall (fun q => file_string_of q <> file_string_of p) l2 ->
  lookup f p = Some (NFile c) -> parse_url_file c = POk v ->
  dict_get m (file_string_of p) = Some v.
Proof.
  intros f s l1 p l2. induction l1 as [|q l1 IH]; intros acc m c v H Hm Hl2 Hf Hp.
  - cbn in H. rewrite Hm in H. unfold read_text in H. rewrite Hf in H. cbn in H.
    rewrite Hp in H. cbn in H.
    rewrite (url_loop_preserve _ _ _ _ _ _ H Hl2), dict_get_set, String.eqb_refl.
    reflexivity.
  - cbn in H. destruct (matches s (file_string_of q)).
    + destruct (read_text f q) as [c'|]; cbn in H; [| discriminate].
      destruct (parse_url_file c') as [v'|]; cbn in H; [| discriminate].
      exact (IH _ _ _ _ H Hm Hl2 Hf Hp).
    + exact (IH _ _ _ _ H Hm Hl2 Hf Hp).
Qed.

Lemma parse_lines_preserve : forall ls d0 d key,
  parse_lines ls d0 = POk d ->
  Forall (fun toks => hd_error toks <> Some key) (map py_split ls) ->
  dict_get d key = dict_get d0 key.
Proof.
  intros ls. induction ls as [|line ls IH]; intros d0 d key H Hf.
  - cbn in H. injection H as <-. reflexivity.
  - inversion Hf as [|? ? Hl Hrest]; subst. cbn in H.
    destruct (py_split line) as [|k0 [|v0 [|x r]]] eqn:E; try discriminate.
    rewrite (IH _ _ _ H Hrest), dict_get_set.
    destruct (String.eqb key k0) eqn:E1; [| reflexivity].
    apply String.eqb_eq in E1; subst. cbn in Hl. congruence.
Qed.

Lemma parse_lines_last : forall l1 ls key value l2 d0 d,
  map py_split ls = (l1 ++ [key; value] :: l2)%list ->
  parse_lines ls d0 = POk d ->
  Forall (fun toks => hd_error toks <> Some key) l2 ->
  dict_get d key = Some value.
Proof.
  intros l1. induction l1 as [|toks l1 IH]; intros ls key value l2 d0 d Hm H Hl2;
    destruct ls as [|line ls]; try discriminate; cbn in Hm; injection Hm as Hline Hrest.
  - cbn in H. rewrite Hline in H.
    rewrite <- Hrest in Hl2.
    rewrite (parse_lines_preserve _ _ _ _ H Hl2), dict_get_set, String.eqb_refl.
    reflexivity.
  - cbn in H. destruct (py_split line) as [|k0 [|v0 [|x r]]]; try discriminate.
    exact (IH _ _ _ _ _ _ Hrest H Hl2).
Qed.

Definition fs_dup : fs :=
  [("url", NDir);
   ("url/a.txt", NFile ("id" ++ TAB ++ "X" ++ CRLF));
   ("url/a.conf", NFile ("id" ++ TAB ++ "Y" ++ CRLF ++ "id" ++ TAB ++ "Z" ++ CRLF))].

(** C9: the mapping is keyed by the extension-stripped base name, and
    later wins without any error: among the matching entries that [glob]
    lists with the same base name, the last one gives the value; within
    one file, the last line with a key gives that key's value. *)
Theorem C9_later_entries_overwrite : forall f dir_path sensor_list m,
  open_url_files f dir_path sensor_list = POk m ->
  (forall l1 p l2 c v,
     glob_star f (dir_path ++ "*") = (l1 ++ p :: l2)%list ->
     matches sensor_list (file_string_of p) = true ->
     Forall (fun q => file_string_of q <> file_string_of p) l2 ->
     lookup f p = Some (NFile c) -> parse_url_file c = POk v ->
     dict_get m (file_string_of p) = Some v) /\
  (forall c v l1 key value l2,
     parse_url_file c = POk v ->
     map py_split (py_lines c) = (l1 ++ [key; value] :: l2)%list ->
     Forall (fun toks => hd_error toks <> Some key) l2 ->
     dict_get v key = Some value).
Proof.
  intros f dir_path sensor_list m H. split.
  - intros l1 p l2 c v Hg Hm Hl2 Hf Hp. unfold open_url_files in H. rewrite Hg in H.
    exact (url_loop_last _ _ _ _ _ _ _ _ _ H Hm Hl2 Hf Hp).
  - intros c v l1 key value l2 Hp Hm Hl2.
    exact (parse_lines_last _ _ _ _ _ _ _ Hm Hp Hl2).
Qed.

Lemma C9_later_entries_overwrite_witness :
  open_url_files fs_dup "url/" ["a"] = POk [("a", [("id", "Z")])] /\
  ((forall l1 p l2 c v,
      glob_star fs_dup ("url/" ++ "*") = (l1 ++ p :: l2)%list ->
      matches ["a"] (file_string_of p) = true ->
      Forall (fun q => file_string_of q <> file_string_of p) l2 ->
      lookup fs_dup p = Some (NFile c) -> parse_url_file c = POk v ->
      dict_get [("a", [("id", "Z")])] (file_string_of p) = Some v) /\
   (forall c v l1 key value l2,
      parse_url_file c = POk v ->
      map py_split (py_lines c) = (l1 ++ [key; value] :: l2)%list ->
      Forall (fun toks => hd_error toks <> Some key) l2 ->
      dict_get v key = Some value)).
Proof.
  split; [vm_compute; reflexivity |].
  apply (C9_later_entries_overwrite fs_dup "url/" ["a"]). vm_compute. reflexivity.
Defined.

Lemma url_loop_spec : forall f s paths acc m,
  url_loop f s paths acc = POk m ->
  (forall k, (exists v, dict_get m k = Some v) <->
             ((exists v, dict_get acc k = Some v) \/
              exists p, In p paths /\ file_string_of p = k /\ matches s k = true)) /\
  (forall k v, dict_get m k = Some v ->
     dict_get acc k = Some v \/
     exists p c, In p paths /\ file_string_of p = k /\
                 lookup f p = Some (NFile c) /\ parse_url_file c = POk v) /\
  (forall p, In p paths -> matches s (file_string_of p) = true ->
     exists c v, lookup f p = Some (NFile c) /\ parse_url_file c = POk v).
Proof.
  intros f s paths. induction paths as [|q rest IH]; intros acc m H.
  - cbn in H. injection H as <-. split; [| split].
    + intros k. split; [intros Hk; left; exact Hk |].
      intros [Hk | [p [[] _]]]. exact Hk.
    + intros k v Hk. left. exact Hk.
    + intros p [].
  - cbn in H. destruct (matches s (file_string_of q)) eqn:Hq.
    + destruct (read_text f q) as [c|] eqn:Hr; cbn in H; [| discriminate].
      destruct (parse_url_file c) as [v0|] eqn:Hp; cbn in H; [| discriminate].
      assert (Hf : lookup f q = Some (NFile c)).
      { unfold read_text in Hr. destruct (lookup f q) as [[c'|]|]; congruence. }
      destruct (IH _ _ H) as [Hkeys [Hvals Hall]]. split; [| split].
      * intros k. rewrite Hkeys. rewrite dict_get_set.
        destruct (String.eqb k (file_string_of q)) eqn:E.
        -- apply String.eqb_eq in E. subst k. split; [intros _ |].
           ++ right. exists q. split; [left; reflexivity | split; [reflexivity | exact Hq]].
           ++ intros _. left. exists v0. reflexivity.
        -- split.
           ++ intros [Hk | [p [Hin [Hpk Hm]]]]; [left; exact Hk |].
              right. exists p. split; [right; exact Hin | split; assumption].
           ++ intros [Hk | [p [[<- | Hin] [Hpk Hm]]]]; [left; exact Hk | |].
              ** apply String.eqb_neq in E. congruence.
              ** right. exists p. split; [exact Hin | split; assumption].
      * intros k v Hk. destruct (Hvals k v Hk) as [Ha | [p [c' [Hin Hrest]]]].
        -- rewrite dict_get_set in Ha. destruct (String.eqb k (file_string_of q)) eqn:E.
           ++ apply String.eqb_eq in E. injection Ha as <-. right. exists q, c.
              split; [left; reflexivity | split; [symmetry; exact E | split; assumption]].
           ++ left. exact Ha.
        -- right. exists p, c'. split; [right; exact Hin | exact Hrest].
      * intros p [<- | Hin] Hm; [exists c, v0; split; assumption |].
        exact (Hall p Hin Hm).
    + destruct (IH _ _ H) as [Hkeys [Hvals Hall]]. split; [| split].
      * intros k. rewrite Hkeys. split.
        -- intros [Hk | [p [Hin Hrest]]]; [left; exact Hk |].
           right. exists p. split; [right; exact Hin | exact Hrest].
        -- intros [Hk | [p [[<- | Hin] [Hpk Hm]]]]; [left; exact Hk | |].
           ++ subst k. congruence.
           ++ right. exists p. split; [exact Hin | split; assumption].
      * intros k v Hk. destruct (Hvals k v Hk) as [Ha | [p [c' [Hin Hrest]]]];
          [left; exact Ha |].
        right. exists p, c'. split; [right; exact Hin | exact Hrest].
      * intros p [<- | Hin] Hm; [congruence |]. exact (Hall p Hin Hm).
Qed.

Lemma glob_star_names : forall f pat p,
  In p (glob_star f pat) ->
  starts_with_dot (drop_last (snd (pysplit pat))) = false ->
  exists n, p = join (fst (pysplit pat)) n /\ starts_with_dot n = false.
Proof.
  intros f pat p Hin Hlit. unfold glob_star in Hin.
  destruct (pysplit pat) as [d b]. cbn in Hlit |- *.
  destruct (String.eqb d "" || is_dir f d); [| destruct Hin].
  apply in_map_iff in Hin. destruct Hin as [n [<- Hn]].
  apply filter_In in Hn. destruct Hn as [_ Hn].
  rewrite Hlit in Hn. cbn in Hn. apply andb_prop in Hn. destruct Hn as [_ Hn].
  exists n. split; [reflexivity | destruct (starts_with_dot n); [discriminate | reflexivity]].
Qed.

Definition livingroom_conf : string :=
  "id" ++ TAB ++ "ABC123" ++ CRLF ++ "pin" ++ TAB ++ "4" ++ CRLF
  ++ "name" ++ TAB ++ "home_livingroom" ++ CRLF.

Definition fs_hidden : fs :=
  [("url", NDir); ("url/.home_livingroom.txt", NFile livingroom_conf)].

(** C6 (as stated, refuted): a well-formed file whose extension-stripped
    base name contains the allow-list string is left out when its name
    starts with a dot, because [glob] does not list such names. *)
Lemma C6_hidden_file_excluded :
  lookup fs_hidden "url/.home_livingroom.txt" = Some (NFile livingroom_conf) /\
  file_string_of "url/.home_livingroom.txt" = ".home_livingroom" /\
  matches ["home_livingroom"] ".home_livingroom" = true /\
  parse_url_file livingroom_conf =
    POk [("id", "ABC123"); ("pin", "4"); ("name", "home_livingroom")] /\
  open_url_files fs_hidden "url/" ["home_livingroom"] = POk [].
Proof. vm_compute. repeat split. Qed.

(** C6 (amended): when [open_url_files] returns a mapping, its keys are
    exactly the extension-stripped base names of the paths listed by
    [glob(dir_path + '*')] that contain some allow-list string; each
    value is the dict parsed from one such listed file; every such listed
    entry is a regular file whose lines all split into exactly two
    tokens (otherwise the loader raises); and [glob] lists no name
    starting with a dot when the last pattern component does not (for a
    [dir_path] ending in ['/'], the component is ['*']). *)
Theorem C6_loader_result : forall f dir_path sensor_list m,
  open_url_files f dir_path sensor_list = POk m ->
  (forall k, (exists v, dict_get m k = Some v) <->
             exists p, In p (glob_star f (dir_path ++ "*")) /\
                       file_string_of p = k /\ matches sensor_list k = true) /\
  (forall k v, dict_get m k = Some v ->
     exists p c, In p (glob_star f (dir_path ++ "*")) /\ file_string_of p = k /\
                 lookup f p = Some (NFile c) /\ parse_url_file c = POk v) /\
  (forall p, In p (glob_star f (dir_path ++ "*")) ->
     matches sensor_list (file_string_of p) = true ->
     exists c v, lookup f p = Some (NFile c) /\ parse_url_file c = POk v) /\
  (forall p, In p (glob_star f (dir_path ++ "*")) ->
     starts_with_dot (drop_last (snd (pysplit (dir_path ++ "*")))) = false ->
     exists n, p = join (fst (pysplit (dir_path ++ "*"))) n /\ starts_with_dot n = false).
Proof.
  intros f dir_path sensor_list m H. unfold open_url_files in H.
  destruct (url_loop_spec _ _ _ _ _ H) as [Hkeys [Hvals Hall]].
  split; [| split; [| split]].
  - intros k. rewrite Hkeys. split.
    + intros [[v Hv] | Hp]; [discriminate Hv | exact Hp].
    + intros Hp. right. exact Hp.
  - intros k v Hk. destruct (Hvals k v Hk) as [Ha | Hp]; [discriminate Ha | exact Hp].
  - exact Hall.
  - intros p Hin. exact (glob_star_names f _ p Hin).
Qed.

Lemma C6_loader_result_witness :
  open_url_files fs_dup "url/" ["a"] = POk [("a", [("id", "Z")])] /\
  ((forall k, (exists v, dict_get [("a", [("id", "Z")])] k = Some v) <->
              exists p, In p (glob_star fs_dup ("url/" ++ "*")) /\
                        file_string_of p = k /\ matches ["a"] k = true) /\
   (forall k v, dict_get [("a", [("id", "Z")])] k = Some v ->
      exists p c, In p (glob_star fs_dup ("url/" ++ "*")) /\ file_string_of p = k /\
                  lookup fs_dup p = Some (NFile c) /\ parse_url_file c = POk v) /\
   (forall p, In p (glob_star fs_dup ("url/" ++ "*")) ->
      matches ["a"] (file_string_of p) = true ->
      exists c v, lookup fs_dup p = Some (NFile c) /\ parse_url_file c = POk v) /\
   (forall p, In p (glob_star fs_dup ("url/" ++ "*")) ->
      starts_with_dot (drop_last (snd (pysplit ("url/" ++ "*")))) = false ->
      exists n, p = join (fst (pysplit ("url/" ++ "*"))) n /\ starts_with_dot n = false)).
Proof.
  split; [vm_compute; reflexivity |].
  apply (C6_loader_result fs_dup "url/" ["a"]). vm_compute. reflexivity.
Defined.

(* ------------------------------------------------------------------ *)
(** ** Paths: [os.path.split] undoes [os.path.join] *)

Lemma length_app : forall x y, String.length (x ++ y) = String.length x + String.length y.
Proof. induction x as [|a x IH]; intros y; cbn; [reflexivity | rewrite IH; reflexivity]. Qed.

Lemma substring_app_r : forall x y n m,
  substring (String.length x + n) m (x ++ y) = substring n m y.
Proof. induction x as [|a x IH]; intros y n m; cbn; [reflexivity | apply IH]. Qed.

Lemma substring_0_app : forall x y k,
  substring 0 (String.length x + k) (x ++ y) = x ++ substring 0 k y.
Proof. induction x as [|a x IH]; intros y k; cbn; [reflexivity | rewrite IH; reflexivity]. Qed.

Lemma substring_0_full : forall y, substring 0 (String.length y) y = y.
Proof. induction y as [|a y IH]; cbn; [reflexivity | rewrite IH; reflexivity]. Qed.

Lemma substring_length : forall s n m,
  n + m <= String.length s -> String.length (substring n m s) = m.
Proof.
  induction s as [|a s IH]; intros n m H; cbn in H.
  - assert (n = 0) by lia; assert (m = 0) by lia; subst; reflexivity.
  - destruct n as [|n].
    + destruct m as [|m]; [reflexivity |]. cbn. f_equal. apply IH. lia.
    + cbn. apply IH. lia.
Qed.

Lemma rfind_aux_app : forall c x y i acc,
  rfind_aux c (x ++ y) i acc = rfind_aux c y (i + String.length x) (rfind_aux c x i acc).
Proof.
  intros c x. induction x as [|a x IH]; intros y i acc; cbn.
  - rewrite Nat.add_0_r. reflexivity.
  - rewrite IH, Nat.add_succ_r. reflexivity.
Qed.

Lemma rfind_aux_no_char : forall c y i acc,
  no_char c y = true -> rfind_aux c y i acc = acc.
Proof.
  intros c y. induction y as [|a y IH]; intros i acc H; cbn in *; [reflexivity |].
  apply andb_prop in H. destruct H as [Ha Hy].
  destruct (Ascii.eqb a c); [discriminate | apply IH; exact Hy].
Qed.

Lemma rfind_aux_bound : forall c s i acc j,
  rfind_aux c s i acc = Some j -> acc = Some j \/ j < i + String.length s.
Proof.
  intros c s. induction s as [|a s IH]; intros i acc j H; cbn in *; [left; exact H |].
  destruct (IH _ _ _ H) as [Hacc | Hlt]; [| right; lia].
  destruct (Ascii.eqb a c); [injection Hacc as <-; right; lia | left; exact Hacc].
Qed.

Lemma last_char_snoc : forall s a,
  last_char s = Some a -> exists s0, s = (s0 ++ String a EmptyString).
Proof.
  induction s as [|b s IH]; intros a H; [discriminate |].
  destruct s as [|b' s'].
  - injection H as <-. exists EmptyString. reflexivity.
  - destruct (IH a H) as [s0 Hs0]. exists (String b s0). cbn. rewrite <- Hs0. reflexivity.
Qed.

Lemma list_ascii_app : forall x y,
  list_ascii_of_string (x ++ y) = (list_ascii_of_string x ++ list_ascii_of_string y)%list.
Proof. induction x as [|a x IH]; intros y; cbn; [reflexivity | rewrite IH; reflexivity]. Qed.

Lemma rstrip_snoc_slash : forall l,
  rstrip_slash_l (l ++ [slash])%list = rstrip_slash_l l.
Proof.
  induction l as [|a l IH]; [reflexivity |]. cbn [app rstrip_slash_l]. rewrite IH. reflexivity.
Qed.

Lemma rstrip_snoc_name : forall l a,
  Ascii.eqb a slash = false -> rstrip_slash_l (l ++ [a])%list = (l ++ [a])%list.
Proof.
  intros l a Ha. induction l as [|b l IH].
  - cbn. rewrite Ha. reflexivity.
  - cbn [app rstrip_slash_l]. rewrite IH. destruct l; reflexivity.
Qed.

Lemma append_assoc_s : forall x y z, ((x ++ y) ++ z) = (x ++ (y ++ z)).
Proof. induction x as [|a x IH]; intros y z; cbn; [reflexivity | rewrite IH; reflexivity]. Qed.

Lemma app_string_nonempty : forall x c s, String.eqb (x ++ String c s) "" = false.
Proof. destruct x; reflexivity. Qed.

Lemma all_char_app : forall c x y, all_char c (x ++ y) = all_char c x && all_char c y.
Proof.
  intros c x. induction x as [|a x IH]; intros y; cbn; [reflexivity |].
  rewrite IH, andb_assoc. reflexivity.
Qed.

Lemma ends_in_name_snoc : forall x,
  ends_in_name x = true ->
  exists x0 a, x = (x0 ++ String a EmptyString) /\ Ascii.eqb a slash = false.
Proof.
  intros x H. unfold ends_in_name in H.
  destruct (last_char x) as [a|] eqn:E; [| discriminate].
  destruct (last_char_snoc _ _ E) as [x0 ->]. exists x0, a.
  split; [reflexivity | destruct (Ascii.eqb a slash); [discriminate | reflexivity]].
Qed.

(** [os.path.split(x + '/' + y)] is [(x, y)] when [x] ends in a name and
    [y] holds no slash. *)
Lemma pysplit_join_name : forall x y,
  ends_in_name x = true -> no_char slash y = true ->
  pysplit (x ++ String "/" y) = (x, y).
Proof.
  intros x y Hx Hy.
  destruct (ends_in_name_snoc _ Hx) as (x0 & a & Ex & Ha).
  assert (Hr : rfind slash (x ++ String "/" y) = Some (String.length x)).
  { unfold rfind. rewrite rfind_aux_app. cbn [rfind_aux].
    rewrite rfind_aux_no_char by exact Hy. reflexivity. }
  unfold pysplit. rewrite Hr.
  assert (Hh : substring 0 (S (String.length x)) (x ++ String "/" y) = (x ++ "/")).
  { rewrite <- Nat.add_1_r, substring_0_app. destruct y; reflexivity. }
  assert (Ht : drop (S (String.length x)) (x ++ String "/" y) = y).
  { unfold drop. rewrite length_app. cbn [String.length].
    replace (String.length x + S (String.length y) - S (String.length x))
      with (String.length y) by lia.
    rewrite <- Nat.add_1_r, substring_app_r. cbn [substring].
    apply substring_0_full. }
  rewrite Hh, Ht, app_string_nonempty.
  assert (Hall : all_char slash (x ++ "/") = false).
  { rewrite Ex, !all_char_app. cbn [all_char]. rewrite Ha.
    rewrite !andb_false_r. reflexivity. }
  rewrite Hall. cbn [negb andb]. f_equal.
  unfold rstrip_slash. rewrite list_ascii_app. cbn [list_ascii_of_string].
  rewrite rstrip_snoc_slash, Ex, list_ascii_app. cbn [list_ascii_of_string].
  rewrite rstrip_snoc_name by exact Ha.
  change [a] with (list_ascii_of_string (String a EmptyString)).
  rewrite <- list_ascii_app. apply string_of_list_ascii_of_string.
Qed.

Lemma basename_ends_in_name : forall x,
  ends_in_name x = true -> String.eqb (basename x) "" = false.
Proof.
  intros x Hx.
  destruct (ends_in_name_snoc _ Hx) as (x0 & a & Ex & Ha).
  unfold basename, rfind. rewrite Ex, rfind_aux_app. cbn [rfind_aux]. rewrite Ha.
  destruct (rfind_aux slash x0 0 None) as [i|] eqn:Ei.
  - destruct (rfind_aux_bound _ _ _ _ _ Ei) as [Hn | Hi]; [discriminate |].
    unfold drop. rewrite length_app. cbn [String.length].
    destruct (substring (S i) (String.length x0 + 1 - S i) (x0 ++ String a ""))
      as [|b s] eqn:Es; [| reflexivity].
    exfalso.
    assert (Hl := substring_length (x0 ++ String a "") (S i)
                    (String.length x0 + 1 - S i)).
    rewrite Es, length_app in Hl. cbn [String.length] in Hl. lia.
  - apply app_string_nonempty.
Qed.

Lemma join_name : forall x c s,
  ends_in_name x = true -> Ascii.eqb c slash = false ->
  join x (String c s) = (x ++ String "/" (String c s)).
Proof.
  intros x c s Hx Hc.
  destruct (ends_in_name_snoc _ Hx) as (x0 & a & Ex & Ha).
  unfold join. rewrite Hc, (basename_ends_in_name _ Hx), Ex, app_string_nonempty.
  reflexivity.
Qed.

(* ------------------------------------------------------------------ *)
(** ** Start-up with the script at a real path *)

(** C4: the program, started from a script file at any path (the path
    [os.path.realpath(__file__)], which ends in a name), stops with a
    fatal error before the poll loop whenever its configuration
    directory [os.path.join(script, "url")] is missing; that directory is
    in fact always missing, since its parent is the script file.  The
    loader does not raise on the missing directory ([glob] lists
    nothing and the result is the empty dict); the fatal error is the
    [NotADirectoryError] that [os.makedirs] raises for the output
    directory, likewise placed under the script file. *)
Theorem C4_missing_config_fatal_at_startup (f : fs) (script c : string)
  (Hname : ends_in_name script = true)
  (Hfile : lookup f script = Some (NFile c))
  (Hunder : forall p n, lookup f p = Some n -> fst (pysplit p) <> script) :
  exists_path f (join script "url") = false /\
  open_url_files f (join script "url") main_sensors = POk [] /\
  startup f script = PExn NotADirectoryError.
Proof.
  assert (Hne : String.eqb script "" = false).
  { destruct (ends_in_name_snoc _ Hname) as (x0 & a & -> & _).
    apply app_string_nonempty. }
  assert (Hdir : is_dir f script = false) by (unfold is_dir; rewrite Hfile; reflexivity).
  assert (Hex : exists_path f script = true) by (unfold exists_path; rewrite Hfile; reflexivity).
  assert (Hunder' : forall y, no_char slash y = true ->
                    exists_path f (script ++ String "/" y) = false).
  { intros y Hy. unfold exists_path.
    destruct (lookup f (script ++ String "/" y)) as [n|] eqn:E; [| reflexivity].
    exfalso. apply (Hunder _ _ E). rewrite pysplit_join_name by assumption.
    reflexivity. }
  assert (Hurl : join script "url" = (script ++ String "/" "url"))
    by (apply join_name; [exact Hname | reflexivity]).
  assert (Hload : open_url_files f (join script "url") main_sensors = POk []).
  { unfold open_url_files, glob_star. rewrite Hurl, append_assoc_s.
    cbn [append]. rewrite pysplit_join_name by (assumption || reflexivity).
    cbv beta iota zeta. rewrite Hne, Hdir. reflexivity. }
  assert (Hout : output_dir_of script = (script ++ String "/" "output"))
    by (apply join_name; [exact Hname | reflexivity]).
  assert (Hmk : makedirs f (script ++ String "/" "output") = PExn NotADirectoryError).
  { unfold makedirs. rewrite length_app. cbn [String.length]. rewrite Nat.add_succ_r.
    cbn [makedirs_fuel]. rewrite pysplit_join_name by (assumption || reflexivity).
    cbv beta iota zeta. rewrite Hne, Hex, andb_false_r. cbn [res_bind].
    unfold mkdir. rewrite Hunder' by reflexivity.
    rewrite pysplit_join_name by (assumption || reflexivity).
    cbv beta iota zeta. rewrite Hne, Hdir, Hex. reflexivity. }
  split; [rewrite Hurl; apply Hunder'; reflexivity |].
  split; [exact Hload |].
  unfold startup. rewrite Hload. cbn [res_bind].
  unfold open_output_file. rewrite Hout, Hunder' by reflexivity.
  cbn [negb]. rewrite Hmk. reflexivity.
Qed.

Lemma C4_missing_config_fatal_at_startup_witness :
  exists_path fs_install (join script_install "url") = false /\
  open_url_files fs_install (join script_install "url") main_sensors = POk [] /\
  startup fs_install script_install = PExn NotADirectoryError.
Proof.
  apply (C4_missing_config_fatal_at_startup fs_install script_install "import os");
    [reflexivity | reflexivity |].
  intros p n Hp Hs. unfold lookup, fs_install in Hp.
  repeat match type of Hp with
         | context [if String.eqb ?a ?b then _ else _] =>
             destruct (String.eqb_spec a b) as [E|_]; [subst a |]
         end; try discriminate Hp; vm_compute in Hs; discriminate Hs.
Defined.

(** C5 (code defect): on a fresh installation (the script at
    /home/pi/read_sensor_data.py, its url directory beside it, no log
    file yet) no header and no data line is ever written:
    [open_output_file] raises [NotADirectoryError] from [os.makedirs],
    because the output directory is joined onto the script file itself
    rather than onto its directory, and the program stops before the
    first reading. *)
Lemma C5_fresh_log_never_written :
  lookup fs_install (output_file_path_of script_install) = None /\
  output_dir_of script_install = "/home/pi/read_sensor_data.py/output" /\
  open_output_file fs_install script_install = PExn NotADirectoryError /\
  startup fs_install script_install = PExn NotADirectoryError.
Proof. repeat split; vm_compute; reflexivity. Qed.

(* ------------------------------------------------------------------ *)
(** ** The pacing of the poll loop *)

Lemma py_mod_60_bounds : forall x, (0 <= py_mod x 60 < 60)%Q.
Proof.
  intros x. unfold py_mod.
  pose proof (Qfloor_le (x / 60)) as H1.
  pose proof (Qlt_floor (x / 60)) as H2.
  rewrite inject_Z_plus in H2.
  set (k := inject_Z (Qfloor (x / 60))) in *.
  change (inject_Z 1) with 1%Q in H2.
  assert (Hx : (x / 60 * 60 == x)%Q) by (field; discriminate).
  split; lra.
Qed.

(** [time.sleep(120.0 - ((time.time() - start_time) % 60.0))] always
    sleeps more than 60 and at most 120 seconds, whatever the clock says
    (also when it runs backwards). *)
Theorem sleep_delay_bounds : forall now start_time,
  (60 < sleep_delay now start_time <= 120)%Q.
Proof.
  intros now start_time. unfold sleep_delay.
  pose proof (py_mod_60_bounds (now - start_time)). lra.
Qed.

(** After a sleep of exactly the computed delay, the time elapsed since
    [start_time] is a whole number of minutes: the cycles start on the
    minute grid of the program's start. *)
Theorem sleep_delay_aligns : forall now start_time,
  (py_mod ((now - start_time) + sleep_delay now start_time) 60 == 0)%Q.
Proof.
  intros now start_time. unfold sleep_delay, py_mod.
  set (x := (now - start_time)%Q).
  set (k := Qfloor (x / 60)).
  assert (He : ((x + (120 - (x - 60 * inject_Z k))) / 60 == inject_Z (k + 2))%Q).
  { rewrite inject_Z_plus. field. }
  rewrite (Qfloor_comp _ _ He), Qfloor_Z.
  rewrite inject_Z_plus. change (inject_Z 2) with 2%Q. ring.
Qed.

(* ------------------------------------------------------------------ *)
(** ** The poll loop with no configured sensor *)

(** With an empty [sheet_ids] (what [open_url_files] returns when no file
    matches), every iteration of [while True:] only sleeps: no sensor is
    read, nothing is written or uploaded, and the loop never stops. *)
Theorem main_loop_no_sensors : forall w n k f t,
  main_loop w n k f [] t =
  (POk tt, (t ++ map (fun j => ESleep (sleep_delay (w_time w (k + j)) (w_start w)))
                     (seq 0 n))%list).
Proof.
  intros w n. induction n as [|n IH]; intros k f t.
  - cbn. rewrite app_nil_r. reflexivity.
  - cbn [main_loop run_cycle]. unfold bind, ret, sleep. rewrite IH.
    rewrite <- app_assoc. cbn [seq map app]. rewrite Nat.add_0_r.
    rewrite <- seq_shift, map_map. f_equal. f_equal. f_equal.
    apply map_ext. intros j. rewrite Nat.add_succ_r. reflexivity.
Qed.

(* ------------------------------------------------------------------ *)
(** ** The reads of a cycle *)

Definition is_read (e : event) : bool :=
  match e with ERead _ => true | _ => false end.
Definition is_auth (e : event) : bool :=
  match e with EAuth _ => true | _ => false end.

(** The sensor driver raises on every read. *)
Definition world_read_raises : world :=
  mk_world 0 (fun _ => rt0) (fun k => inject_Z (Z.of_nat (120 * k) + 5))
    (fun _ _ => PExn SensorError) (fun _ => true).

Lemma read_sensor_ok : forall w pin rt t,
  (forall e, w_read w (length t) pin <> PExn e) ->
  exists x, read_sensor w pin rt t = (POk x, (t ++ [ERead pin])%list).
Proof.
  intros w pin rt t H. unfold read_sensor.
  destruct (w_read w (length t) pin) as [[[h|] [c|]]|e] eqn:E;
    try (eexists; reflexivity). exfalso. exact (H e eq_refl).
Qed.

Lemma append_file_effects : forall w f x rt pin t,
  exists dl, append_file w f x rt pin t = (POk tt, (t ++ dl)%list) /\
             filter is_read dl = [] /\ filter is_auth dl = [].
Proof.
  intros w [h|] [l|] rt pin t; run_model; eexists;
    (split; [first [reflexivity | rewrite app_nil_r; reflexivity] | split; reflexivity]).
Qed.

Lemma append_google_sheet_effects : forall w x key rt t,
  exists dg, append_google_sheet w x key rt t = (POk tt, (t ++ dg)%list) /\
             filter is_read dg = [] /\ length (filter is_auth dg) = 1.
Proof.
  intros w [l|] key rt t; run_model; eexists; (split; [reflexivity | split; reflexivity]).
Qed.

Lemma sensor_step_effects : forall w f rt sd t,
  (forall e, w_read w (length t) (dict_get sd "pin") <> PExn e) ->
  exists d, sensor_step w f rt sd t = (POk tt, (t ++ d)%list) /\
            filter is_read d = [ERead (dict_get sd "pin")] /\
            length (filter is_auth d) = 1.
Proof.
  intros w f rt sd t H.
  destruct (read_sensor_ok w _ rt t H) as [x Hr].
  destruct (append_file_effects w f x rt (dict_get sd "pin")
              (t ++ [ERead (dict_get sd "pin")])%list) as [dl [Ha [Ha1 Ha2]]].
  destruct (append_google_sheet_effects w x (dict_get sd "id") rt
              ((t ++ [ERead (dict_get sd "pin")]) ++ dl)%list) as [dg [Hg [Hg1 Hg2]]].
  exists (ERead (dict_get sd "pin") :: dl ++ dg)%list. split; [| split].
  - unfold sensor_step, bind at 1. rewrite Hr. unfold bind. rewrite Ha, Hg.
    rewrite <- !app_assoc. reflexivity.
  - cbn [filter is_read]. rewrite filter_app, Ha1, Hg1. reflexivity.
  - cbn [filter is_auth]. rewrite filter_app, Ha2. exact Hg2.
Qed.

(** As long as the sensor driver does not raise, every cycle of the loop
    completes, reads each configured sensor exactly once, in the order of
    [sheet_ids], with the [pin] of its URL file ([None] when the file has
    no [pin] line), and makes exactly one [service_account()] call per
    sensor, whatever the reads give and whatever the file and gspread
    calls do. *)
Theorem run_cycle_reads_each_sensor_once : forall w f rt sheet_ids t,
  (forall i pin e, w_read w i pin <> PExn e) ->
  exists d, run_cycle w f rt sheet_ids t = (POk tt, (t ++ d)%list) /\
            filter is_read d = map (fun e => ERead (dict_get (snd e) "pin")) sheet_ids /\
            length (filter is_auth d) = length sheet_ids.
Proof.
  intros w f rt sheet_ids. induction sheet_ids as [|[loc sd] rest IH]; intros t H.
  - exists []. rewrite app_nil_r. auto.
  - destruct (sensor_step_effects w f rt sd t (H _ _)) as [d1 [Hs [Hs1 Hs2]]].
    destruct (IH (t ++ d1)%list H) as [d2 [Hc [Hc1 Hc2]]].
    exists (d1 ++ d2)%list. split; [| split].
    + rewrite (run_cycle_cons _ _ _ _ _ _ _ _ Hs), Hc, app_assoc. reflexivity.
    + rewrite filter_app, Hs1, Hc1. reflexivity.
    + rewrite filter_app, List.length_app, Hs2, Hc2. reflexivity.
Qed.

Lemma run_cycle_reads_each_sensor_once_witness :
  (forall i pin e, w_read world_no_data i pin <> PExn e) /\
  exists d, run_cycle world_no_data None rt0 [("home_livingroom", livingroom)] [] =
              (POk tt, ([] ++ d)%list) /\
            filter is_read d =
              map (fun e => ERead (dict_get (snd e) "pin")) [("home_livingroom", livingroom)] /\
            length (filter is_auth d) = length [("home_livingroom", livingroom)].
Proof.
  assert (H : forall i pin e, w_read world_no_data i pin <> PExn e) by discriminate.
  split; [exact H | apply (run_cycle_reads_each_sensor_once world_no_data None rt0 _ [] H)].
Defined.

(** An exception from [Adafruit_DHT.read_retry] is caught nowhere: when
    the read of the first sensor of a cycle raises, [main] stops right
    there, with no write, no upload, no sleep and no later cycle. *)
Theorem read_error_stops_main : forall w n k f loc sd rest t e,
  w_read w (length t) (dict_get sd "pin") = PExn e ->
  main_loop w (S n) k f ((loc, sd) :: rest) t =
  (PExn e, (t ++ [ERead (dict_get sd "pin")])%list).
Proof.
  intros w n k f loc sd rest t e H.
  cbn [main_loop run_cycle]. unfold sensor_step, bind, read_sensor. rewrite H. reflexivity.
Qed.

Lemma read_error_stops_main_witness :
  w_read world_read_raises (length (@nil event)) (dict_get livingroom "pin")
    = PExn SensorError /\
  main_loop world_read_raises 3 0 (Some "log") [("home_livingroom", livingroom)] [] =
  (PExn SensorError, ([] ++ [ERead (dict_get livingroom "pin")])%list).
Proof.
  split; [reflexivity |].
  apply (read_error_stops_main world_read_raises 2 0 (Some "log") "home_livingroom"
           livingroom [] [] SensorError). reflexivity.
Defined.

(* ------------------------------------------------------------------ *)
(** ** Where [glob.glob(dir_path + '*')] looks *)

Lemma drop_cons : forall n a s, drop (S n) (String a s) = drop n s.
Proof. intros n a s. unfold drop. reflexivity. Qed.

Lemma drop_0 : forall s, drop 0 s = s.
Proof. intros s. unfold drop. rewrite Nat.sub_0_r. apply substring_0_full. Qed.

Lemma rfind_aux_spec : forall c s i acc,
  (rfind_aux c s i acc = acc /\ no_char c s = true) \/
  (exists j, rfind_aux c s i acc = Some j /\ i <= j /\
             no_char c (drop (S (j - i)) s) = true).
Proof.
  intros c s. induction s as [|a s IH]; intros i acc; [left; auto |].
  cbn [rfind_aux no_char].
  destruct (IH (S i) (if Ascii.eqb a c then Some i else acc))
    as [[Hr Hn] | [j [Hr [Hij Hn]]]].
  - rewrite Hr. destruct (Ascii.eqb a c) eqn:E.
    + right. exists i. split; [reflexivity | split; [lia |]].
      rewrite Nat.sub_diag, drop_cons, drop_0. exact Hn.
    + left. auto.
  - right. exists j. split; [exact Hr | split; [lia |]].
    replace (j - i) with (S (j - S i)) by lia. rewrite drop_cons. exact Hn.
Qed.

(** The tail given by [os.path.split] holds no slash. *)
Lemma pysplit_tail_no_slash : forall p, no_char slash (snd (pysplit p)) = true.
Proof.
  intros p. unfold pysplit, rfind. cbn [snd].
  destruct (rfind_aux_spec slash p 0 None) as [[-> Hn] | [j [-> [_ Hn]]]].
  - rewrite drop_0. exact Hn.
  - rewrite Nat.sub_0_r in Hn. exact Hn.
Qed.

Lemma drop_last_star : forall y, drop_last (y ++ "*") = y.
Proof.
  induction y as [|a y IH]; [reflexivity |].
  cbn [append drop_last]. rewrite IH. destruct y; reflexivity.
Qed.

Lemma no_char_app : forall c x y, no_char c (x ++ y) = no_char c x && no_char c y.
Proof.
  intros c x. induction x as [|a x IH]; intros y; cbn; [reflexivity |].
  rewrite IH, andb_assoc. reflexivity.
Qed.

Lemma no_char_first : forall a s, no_char slash (String a s) = true -> Ascii.eqb a slash = false.
Proof. intros a s H. cbn in H. destruct (Ascii.eqb a slash); [discriminate | reflexivity]. Qed.

(** [glob.glob(os.path.join(x, y) + '*')] lists entries of [x] whose
    names start with [y], not the contents of the directory [x/y]. *)
Lemma glob_star_join : forall f x y p,
  ends_in_name x = true -> no_char slash y = true -> y <> EmptyString ->
  In p (glob_star f (join x y ++ "*")) ->
  exists n, p = (x ++ String "/" n) /\ String.prefix y n = true /\
            no_char slash n = true.
Proof.
  intros f x y p Hx Hy Hne Hin.
  destruct y as [|c y']; [contradiction |].
  rewrite (join_name x c y' Hx (no_char_first _ _ Hy)), append_assoc_s in Hin.
  cbn [append] in Hin. change (String c (y' ++ "*")) with (String c y' ++ "*") in Hin.
  unfold glob_star in Hin.
  rewrite pysplit_join_name in Hin
    by (assumption || (rewrite no_char_app, Hy; reflexivity)).
  rewrite drop_last_star in Hin.
  destruct (String.eqb x "" || is_dir f x); [| destruct Hin].
  apply in_map_iff in Hin. destruct Hin as [n [<- Hn]].
  apply filter_In in Hn. destruct Hn as [Hn Hp]. apply andb_prop in Hp.
  destruct Hp as [Hpre _].
  apply in_flat_map in Hn. destruct Hn as [e [_ He]].
  pose proof (pysplit_tail_no_slash (fst e)) as Hs.
  destruct (pysplit (fst e)) as [d' n'].
  destruct (String.eqb d' x && negb (String.eqb n' "")) eqn:E; [| destruct He].
  destruct He as [<- | []]. cbn [snd] in Hs.
  apply andb_prop in E. destruct E as [_ E].
  destruct n' as [|c' n'']; [discriminate |].
  exists (String c' n''). split; [| split; assumption].
  apply join_name; [exact Hx | exact (no_char_first _ _ Hs)].
Qed.

(** A file [url_home_livingroom.txt] beside the [url] directory. *)
Definition fs_url_sibling : fs :=
  (fs_install ++ [("/home/pi/url_home_livingroom.txt", NFile livingroom_conf)])%list.

Lemma nonslash_snoc : forall y, no_char slash y = true -> y <> EmptyString ->
  exists y0 a, y = (y0 ++ String a EmptyString) /\ Ascii.eqb a slash = false.
Proof.
  induction y as [|b y IH]; intros H Hne; [contradiction |].
  pose proof (no_char_first _ _ H) as Hb. cbn [no_char] in H. rewrite Hb in H.
  cbn [negb andb] in H. destruct y as [|b' y'].
  - exists EmptyString, b. auto.
  - destruct (IH H ltac:(discriminate)) as (y0 & a & Ey & Ha).
    exists (String b y0), a. rewrite Ey. auto.
Qed.

Lemma last_char_snoc_eq : forall s a, last_char (s ++ String a EmptyString) = Some a.
Proof. induction s as [|b s IH]; intros a; [reflexivity |]. destruct s; [reflexivity | exact (IH a)]. Qed.

Lemma ends_in_name_join : forall x y,
  no_char slash y = true -> y <> EmptyString -> ends_in_name (x ++ String "/" y) = true.
Proof.
  intros x y Hy Hne. destruct (nonslash_snoc y Hy Hne) as (y0 & a & -> & Ha).
  unfold ends_in_name.
  replace (x ++ String "/" (y0 ++ String a EmptyString))
    with ((x ++ String "/" y0) ++ String a EmptyString)
    by (rewrite append_assoc_s; reflexivity).
  rewrite last_char_snoc_eq, Ha. reflexivity.
Qed.

Lemma rstrip_app_name : forall l1 a l2, Ascii.eqb a slash = false ->
  rstrip_slash_l ((l1 ++ [a]) ++ l2)%list = ((l1 ++ [a]) ++ rstrip_slash_l l2)%list.
Proof.
  induction l1 as [|b l1 IH]; intros a l2 Ha.
  - cbn [app rstrip_slash_l]. destruct (rstrip_slash_l l2); [rewrite Ha |]; reflexivity.
  - cbn [app rstrip_slash_l]. rewrite IH by exact Ha. destruct l1; reflexivity.
Qed.

Lemma string_of_list_ascii_app_l : forall s l,
  string_of_list_ascii (list_ascii_of_string s ++ l)%list = s ++ string_of_list_ascii l.
Proof. induction s as [|a s IH]; intros l; cbn; [reflexivity | rewrite IH; reflexivity]. Qed.

Lemma rstrip_slash_app_name : forall P s,
  ends_in_name P = true -> rstrip_slash (P ++ s) = P ++ rstrip_slash s.
Proof.
  intros P s HP. destruct (ends_in_name_snoc _ HP) as (x0 & a & -> & Ha).
  unfold rstrip_slash. rewrite !list_ascii_app. cbn [list_ascii_of_string].
  rewrite rstrip_app_name by exact Ha.
  change [a] with (list_ascii_of_string (String a EmptyString)).
  rewrite <- list_ascii_app, string_of_list_ascii_app_l. reflexivity.
Qed.

(** The directory part that [os.path.split] gives for a path beneath
    [x/y...] is longer than [x]. *)
Lemma pysplit_head_below : forall x y r z,
  no_char slash y = true -> y <> EmptyString ->
  String.length x < String.length (fst (pysplit (x ++ String "/" (y ++ r ++ String "/" z)))).
Proof.
  intros x y r z Hy Hne.
  set (P := x ++ String "/" y).
  assert (HP : ends_in_name P = true) by exact (ends_in_name_join x y Hy Hne).
  assert (Hlen : String.length x < String.length P).
  { unfold P. rewrite length_app. cbn [String.length]. lia. }
  replace (x ++ String "/" (y ++ r ++ String "/" z)) with (P ++ (r ++ String "/" z))
    by (unfold P; rewrite append_assoc_s; reflexivity).
  set (w := r ++ String "/" z).
  assert (Hr : exists j, rfind slash (P ++ w) = Some j /\ String.length P <= j).
  { unfold rfind, w. rewrite rfind_aux_app, rfind_aux_app. cbn [rfind_aux].
    set (k := 0 + String.length P + String.length r).
    change (Ascii.eqb "/" slash) with true. cbv iota.
    destruct (rfind_aux_spec slash z (S k) (Some k)) as [[-> _] | [j [-> [Hj _]]]];
      eexists; (split; [reflexivity |]); unfold k; lia. }
  destruct Hr as [j [Hj Hle]].
  unfold pysplit. rewrite Hj. cbn [fst].
  assert (Hh : substring 0 (S j) (P ++ w) = P ++ substring 0 (S j - String.length P) w).
  { replace (S j) with (String.length P + (S j - String.length P)) at 1 by lia.
    apply substring_0_app. }
  rewrite Hh.
  match goal with |- context [if ?b then _ else _] => destruct b end.
  - rewrite rstrip_slash_app_name by exact HP. rewrite length_app. lia.
  - rewrite length_app. lia.
Qed.

Lemma app_cancel_s : forall x a b, (x ++ a) = (x ++ b) -> a = b.
Proof. induction x as [|c x IH]; intros a b H; cbn in H; [exact H | injection H; apply IH]. Qed.

Lemma lookup_app_fs : forall f g q,
  lookup (f ++ g)%list q = match lookup f q with Some nd => Some nd | None => lookup g q end.
Proof.
  induction f as [|[q0 m] f IH]; intros g q; cbn [app lookup]; [reflexivity |].
  destruct (String.eqb q q0); [reflexivity | apply IH].
Qed.

Lemma lookup_absent : forall g q,
  (forall p nd, In (p, nd) g -> p <> q) -> lookup g q = None.
Proof.
  induction g as [|[p nd] g IH]; intros q H; cbn [lookup]; [reflexivity |].
  destruct (String.eqb_spec q p) as [-> | _].
  - exfalso. exact (H p nd (or_introl eq_refl) eq_refl).
  - apply IH. intros p' nd' Hin. exact (H p' nd' (or_intror Hin)).
Qed.

(** The loop over the globbed paths reads the file system only at those
    paths. *)
Lemma url_loop_ext : forall f f' s paths acc,
  (forall p, In p paths -> lookup f' p = lookup f p) ->
  url_loop f' s paths acc = url_loop f s paths acc.
Proof.
  intros f f' s paths. induction paths as [|q rest IH]; intros acc H;
    cbn [url_loop]; [reflexivity |].
  assert (Hrest : forall p, In p rest -> lookup f' p = lookup f p)
    by (intros p Hin; apply H; right; exact Hin).
  destruct (matches s (file_string_of q)); [| apply IH; exact Hrest].
  unfold read_text. rewrite (H q (or_introl eq_refl)).
  destruct (lookup f q) as [[c|]|]; cbn [res_bind]; try reflexivity.
  destruct (parse_url_file c); cbn [res_bind]; [apply IH; exact Hrest | reflexivity].
Qed.

Lemma flat_map_fst : forall (f f' : fs) (h : string -> list string),
  map fst f' = map fst f ->
  flat_map (fun e => h (fst e)) f' = flat_map (fun e => h (fst e)) f.
Proof.
  induction f as [|[q m] f IH]; intros f' h H; destruct f' as [|[q' m'] f'];
    cbn in H; try discriminate; [reflexivity |].
  injection H as -> H. cbn [flat_map fst]. rewrite (IH f' h H). reflexivity.
Qed.

(** [glob] sees the file system only through the kind of the directory
    part and the names listed in it. *)
Lemma glob_star_ext : forall f f' pat,
  is_dir f' (fst (pysplit pat)) = is_dir f (fst (pysplit pat)) ->
  flat_map (fun e : string * node => let (d', n) := pysplit (fst e) in
                     if String.eqb d' (fst (pysplit pat)) && negb (String.eqb n "")
                     then [n] else []) f' =
  flat_map (fun e : string * node => let (d', n) := pysplit (fst e) in
                     if String.eqb d' (fst (pysplit pat)) && negb (String.eqb n "")
                     then [n] else []) f ->
  glob_star f' pat = glob_star f pat.
Proof.
  intros f f' pat Hd Hl. unfold glob_star.
  destruct (pysplit pat) as [d b]. cbn [fst] in Hd, Hl. rewrite Hd, Hl. reflexivity.
Qed.

Lemma pysplit_glob_pat : forall x y,
  ends_in_name x = true -> no_char slash y = true -> y <> EmptyString ->
  pysplit (join x y ++ "*") = (x, y ++ "*").
Proof.
  intros x y Hx Hy Hne. destruct y as [|c y']; [contradiction |].
  rewrite (join_name x c y' Hx (no_char_first _ _ Hy)), append_assoc_s.
  cbn [append]. change (String c (y' ++ "*")) with (String c y' ++ "*").
  apply pysplit_join_name; [exact Hx | rewrite no_char_app, Hy; reflexivity].
Qed.

Lemma flat_map_below_nil : forall x y g,
  no_char slash y = true -> y <> EmptyString ->
  (forall p nd, In (p, nd) g -> exists r z, p = x ++ String "/" (y ++ r ++ String "/" z)) ->
  flat_map (fun e : string * node => let (d', n) := pysplit (fst e) in
                     if String.eqb d' x && negb (String.eqb n "")
                     then [n] else []) g = [].
Proof.
  intros x y g Hy Hne. induction g as [|[p nd] g IH]; intros Hg; [reflexivity |].
  cbn [flat_map fst].
  destruct (Hg p nd (or_introl eq_refl)) as (r & z & ->).
  pose proof (pysplit_head_below x y r z Hy Hne) as Hl.
  destruct (pysplit (x ++ String "/" (y ++ r ++ String "/" z))) as [d' n].
  cbn [fst] in Hl. destruct (String.eqb_spec d' x) as [-> | _]; [lia |].
  cbn [andb app]. apply IH. intros p' nd' Hin. exact (Hg p' nd' (or_intror Hin)).
Qed.

(** [open_url_files(os.path.join(x, y), sensor_list)], as [main] calls
    it (with [x] the real path of the script and [y] = ["url"]), globs
    [x/y*]: it considers only the entries directly in [x] whose names
    begin with [y], and reads nothing else.  (a) every path it considers
    is such an entry [x/n]; (b) its outcome, result or exception, stays
    the same when the file system changes anywhere but at those paths
    (same names, same kind of [x]); (c) adding any files or directories
    beneath [x/y] (or beneath any [x/y...]) changes nothing, so no file
    inside the directory [x/y] is ever read, nor can make it raise;
    (d) every entry of a result comes from a regular file [x/n], is keyed
    by the stem of [x/n] and holds the pairs parsed from it. *)
Theorem open_url_files_reads_siblings : forall f x y sensor_list,
  ends_in_name x = true -> no_char slash y = true -> y <> EmptyString ->
  (forall p, In p (glob_star f (join x y ++ "*")) ->
     exists n, p = (x ++ String "/" n) /\ String.prefix y n = true /\
               no_char slash n = true) /\
  (forall f', map fst f' = map fst f -> is_dir f' x = is_dir f x ->
     (forall n, String.prefix y n = true -> no_char slash n = true ->
        lookup f' (x ++ String "/" n) = lookup f (x ++ String "/" n)) ->
     open_url_files f' (join x y) sensor_list = open_url_files f (join x y) sensor_list) /\
  (forall g, (forall p nd, In (p, nd) g ->
                exists r z, p = x ++ String "/" (y ++ r ++ String "/" z)) ->
     open_url_files (f ++ g)%list (join x y) sensor_list =
       open_url_files f (join x y) sensor_list) /\
  (forall m, open_url_files f (join x y) sensor_list = POk m ->
   forall k v, dict_get m k = Some v ->
   exists n c, String.prefix y n = true /\ no_char slash n = true /\
               k = file_string_of (x ++ String "/" n) /\
               lookup f (x ++ String "/" n) = Some (NFile c) /\
               parse_url_file c = POk v).
Proof.
  intros f x y sl Hx Hy Hne.
  assert (Hglob : forall p, In p (glob_star f (join x y ++ "*")) ->
            exists n, p = (x ++ String "/" n) /\ String.prefix y n = true /\
                      no_char slash n = true)
    by (intros p; apply glob_star_join; assumption).
  pose proof (pysplit_glob_pat x y Hx Hy Hne) as Hsplit.
  split; [exact Hglob | split; [| split]].
  - intros f' Hnames Hdir Hlook. unfold open_url_files.
    rewrite (glob_star_ext f f' (join x y ++ "*")).
    + apply url_loop_ext. intros p Hin.
      destruct (Hglob p Hin) as [n [-> [Hpre Hn]]]. apply Hlook; assumption.
    + rewrite Hsplit. exact Hdir.
    + rewrite Hsplit. cbn [fst].
      exact (flat_map_fst f f' (fun q => let (d', n) := pysplit q in
                                         if String.eqb d' x && negb (String.eqb n "")
                                         then [n] else []) Hnames).
  - intros g Hg. unfold open_url_files.
    rewrite (glob_star_ext f (f ++ g)%list (join x y ++ "*")).
    + apply url_loop_ext. intros p Hin.
      destruct (Hglob p Hin) as [n [-> [Hpre Hn]]].
      rewrite lookup_app_fs. destruct (lookup f (x ++ String "/" n)); [reflexivity |].
      apply lookup_absent. intros p nd Hpn Heq.
      destruct (Hg p nd Hpn) as (r & z & ->).
      apply app_cancel_s in Heq. injection Heq as Heq. subst n.
      assert (Hs : no_char slash (String "/" z) = false) by reflexivity.
      rewrite !no_char_app, Hs, !andb_false_r in Hn. discriminate.
    + rewrite Hsplit. cbn [fst]. unfold is_dir. rewrite lookup_app_fs.
      destruct (lookup f x); [reflexivity |].
      rewrite lookup_absent; [reflexivity |].
      intros p nd Hpn Heq. destruct (Hg p nd Hpn) as (r & z & ->).
      apply (f_equal String.length) in Heq. rewrite length_app in Heq.
      cbn [String.length] in Heq. lia.
    + rewrite Hsplit. cbn [fst].
      rewrite flat_map_app, (flat_map_below_nil x y g Hy Hne Hg), app_nil_r.
      reflexivity.
  - intros m H k v Hk.
    destruct (url_loop_spec _ _ _ _ _ H) as [_ [Hv _]].
    destruct (Hv k v Hk) as [Hnil | [p [c [Hin [Hk' [Hl Hparse]]]]]]; [discriminate |].
    destruct (Hglob p Hin) as [n [-> [Hpre Hn]]].
    exists n, c. auto.
Qed.

(** A file inside [url] whose name matches the allow-list but whose
    contents do not parse. *)
Definition fs_url_sibling_bad : fs :=
  (fs_url_sibling ++ [("/home/pi/url/home_livingroom_2.txt", NFile "id ABC 123")])%list.

Lemma open_url_files_reads_siblings_witness :
  ends_in_name "/home/pi" = true /\ no_char slash "url" = true /\ "url" <> EmptyString /\
  open_url_files fs_url_sibling (join "/home/pi" "url") main_sensors
    = POk [("url_home_livingroom", livingroom)] /\
  open_url_files fs_url_sibling_bad (join "/home/pi" "url") main_sensors
    = POk [("url_home_livingroom", livingroom)].
Proof.
  assert (H : open_url_files fs_url_sibling (join "/home/pi" "url") main_sensors
                = POk [("url_home_livingroom", livingroom)]) by (vm_compute; reflexivity).
  destruct (open_url_files_reads_siblings fs_url_sibling "/home/pi" "url" main_sensors
              eq_refl eq_refl ltac:(discriminate)) as [_ [_ [Hg _]]].
  split; [reflexivity | split; [reflexivity | split; [discriminate | split; [exact H |]]]].
  unfold fs_url_sibling_bad. rewrite Hg; [exact H |].
  intros p nd [Hp | []]. injection Hp as <- _.
  exists EmptyString, "home_livingroom_2.txt". reflexivity.
Defined.

(* ------------------------------------------------------------------ *)
(** ** Reading a URL file *)





Fixpoint word_chars (s : string) : bool :=
  match s with
  | EmptyString => true
  | String a s' => negb (is_space a) && word_chars s'
  end.

(** A word for [str.split()]: non-empty, no whitespace. *)
Definition is_word (s : string) : bool := negb (String.eqb s "") && word_chars s.






Lemma split_ws_word : forall x s cur,
  word_chars x = true ->
  split_ws_aux (x ++ s) cur = split_ws_aux s (rev (list_ascii_of_string x) ++ cur)%list.
Proof.
  induction x as [|a x IH]; intros s cur H; [reflexivity |].
  cbn [word_chars] in H. apply andb_prop in H. destruct H as [Ha H].
  cbn [append split_ws_aux]. destruct (is_space a); [discriminate |].
  rewrite IH by exact H. cbn [list_ascii_of_string rev]. rewrite <- app_assoc. reflexivity.
Qed.

Lemma split_ws_close : forall x s,
  is_word x = true -> forall a, is_space a = true ->
  split_ws_aux (x ++ String a s) [] = x :: split_ws_aux s [].
Proof.
  intros x s Hx a Ha. unfold is_word in Hx. apply andb_prop in Hx. destruct Hx as [Hne Hw].
  rewrite split_ws_word by exact Hw. cbn [split_ws_aux]. rewrite Ha.
  destruct (rev (list_ascii_of_string x) ++ [])%list as [|b l] eqn:E.
  - destruct x; [discriminate | cbn in E; destruct (rev (list_ascii_of_string x));
                                discriminate E].
  - rewrite <- E, app_nil_r, rev_involutive, string_of_list_ascii_of_string. reflexivity.
Qed.







(* ------------------------------------------------------------------ *)
(** ** The [try] block of [open_output_file] *)

Lemma lookup_update : forall f p n q,
  lookup (update f p n) q =
  if String.eqb q p then match lookup f p with Some _ => Some n | None => None end
  else lookup f q.
Proof.
  induction f as [|[q0 m] f IH]; intros p n q; cbn [update lookup].
  - destruct (String.eqb q p); reflexivity.
  - destruct (String.eqb_spec p q0) as [<- | Hp]; cbn [lookup].
    + destruct (String.eqb_spec q p); rewrite ?String.eqb_refl; reflexivity.
    + rewrite IH. destruct (String.eqb_spec p q0); [contradiction |].
      destruct (String.eqb_spec q q0) as [-> | Hq].
      * destruct (String.eqb_spec q0 p); [congruence | reflexivity].
      * reflexivity.
Qed.

Lemma lookup_snoc : forall f p n q,
  lookup (f ++ [(p, n)])%list q =
  match lookup f q with Some x => Some x | None => if String.eqb q p then Some n else None end.
Proof.
  induction f as [|[q0 m] f IH]; intros p n q; cbn [app lookup].
  - destruct (String.eqb q p); reflexivity.
  - destruct (String.eqb q q0); [reflexivity | apply IH].
Qed.

(** The [try] block of [open_output_file] ([open(path, 'a+')], then the
    header when the file is empty) changes no other file; it leaves the
    log holding just the header when the log was absent or empty, and
    leaves a non-empty log untouched (the header is never written twice).
    It returns [None], with the file system unchanged, exactly when the
    [open] fails (the path is a directory, or its parent is not one). *)
Theorem open_output_try_header : forall f path f' h,
  open_output_try f path = (f', h) ->
  (forall q, q <> path -> lookup f' q = lookup f q) /\
  match h with
  | None => f' = f /\ open_fails f path = true
  | Some p => p = path /\ open_fails f path = false /\
      lookup f' path = Some (NFile (match lookup f path with
                                    | Some (NFile c) => if String.eqb c "" then header else c
                                    | _ => header
                                    end))
  end.
Proof.
  intros f path f' h H. unfold open_output_try, open_fails in *.
  destruct (lookup f path) as [[c|]|] eqn:E.
  - destruct (String.eqb c "") eqn:Ec; injection H as <- <-.
    + split.
      * intros q Hq. rewrite lookup_update.
        destruct (String.eqb_spec q path); [contradiction | reflexivity].
      * split; [reflexivity | split; [reflexivity |]].
        rewrite lookup_update, String.eqb_refl, E. reflexivity.
    + split; [reflexivity |]. rewrite E. auto.
  - injection H as <- <-. auto.
  - destruct (pysplit path) as [head tail].
    destruct (String.eqb head "" || is_dir f head) eqn:Eh; injection H as <- <-.
    + split.
      * intros q Hq. rewrite lookup_snoc. destruct (lookup f q); [reflexivity |].
        destruct (String.eqb_spec q path); [contradiction | reflexivity].
      * split; [reflexivity | split; [reflexivity |]].
        rewrite lookup_snoc, E, String.eqb_refl. reflexivity.
    + auto.
Qed.

Lemma open_output_try_header_witness :
  exists f' h,
  open_output_try fs_install "/home/pi/sensor_output.csv" = (f', h) /\
  (forall q, q <> "/home/pi/sensor_output.csv" -> lookup f' q = lookup fs_install q) /\
  match h with
  | None => f' = fs_install /\ open_fails fs_install "/home/pi/sensor_output.csv" = true
  | Some p => p = "/home/pi/sensor_output.csv" /\
      open_fails fs_install "/home/pi/sensor_output.csv" = false /\
      lookup f' "/home/pi/sensor_output.csv" =
        Some (NFile (match lookup fs_install "/home/pi/sensor_output.csv" with
                     | Some (NFile c) => if String.eqb c "" then header else c
                     | _ => header
                     end))
  end.
Proof.
  eexists _, _. split; [reflexivity |].
  apply (open_output_try_header fs_install "/home/pi/sensor_output.csv"). reflexivity.
Defined.

(* ------------------------------------------------------------------ *)
(** ** The fields of a log line *)

Lemma word_chars_app : forall x y, word_chars (x ++ y) = word_chars x && word_chars y.
Proof.
  induction x as [|a x IH]; intros y; cbn; [reflexivity | rewrite IH, andb_assoc; reflexivity].
Qed.

Lemma digit_not_space : forall d, (0 <= d < 10)%Z -> is_space (digit d) = false.
Proof.
  intros d Hd. unfold digit. assert (Hk : (Z.to_nat d < 10)%nat) by lia.
  remember (Z.to_nat d) as k. clear Heqk Hd.
  do 10 (destruct k as [|k]; [reflexivity |]). lia.
Qed.

Lemma digits_aux_word : forall fuel n acc,
  word_chars acc = true -> word_chars (digits_aux fuel n acc) = true.
Proof.
  induction fuel as [|fuel IH]; intros n acc H; [exact H |].
  cbn [digits_aux].
  assert (Hd : word_chars (String (digit (n mod 10)) acc) = true).
  { cbn [word_chars]. rewrite digit_not_space by (apply Z.mod_pos_bound; lia).
    exact H. }
  destruct (n <? 10)%Z; [exact Hd | apply IH; exact Hd].
Qed.

(** ['{:0.1f}'.format(x)] is a non-empty string without whitespace. *)
Lemma fmt1_word : forall x, is_word (fmt1 x) = true.
Proof.
  intros [s|s| |s m e]; unfold is_word; [destruct s; reflexivity .. | reflexivity |].
  cbn [fmt1]. set (n := tenths_mag m e).
  assert (Hz : word_chars (Z_to_dec (n / 10)) = true) by (apply digits_aux_word; reflexivity).
  assert (Hdg : is_space (digit (n mod 10)) = false)
    by (apply digit_not_space, Z.mod_pos_bound; lia).
  apply andb_true_intro. split.
  - destruct s; cbn [append]; [reflexivity | rewrite app_string_nonempty; reflexivity].
  - rewrite !word_chars_app, Hz. cbn [word_chars]. rewrite Hdg. destruct s; reflexivity.
Qed.

(** Splitting a log line written by [append_file] on whitespace gives
    back its six fields (date, time, the three values with one decimal,
    and the pin) as long as the date, the time and the pin are non-empty
    and hold no whitespace, as [time.strftime] gives them and as a pin
    read by [line.split()] is: no formatted number adds or hides a
    separator. *)
Theorem log_line_fields : forall rt l dht_pin,
  is_word (tm_date rt) = true -> is_word (sl_time l) = true ->
  is_word (str_pin dht_pin) = true ->
  py_split (log_line rt l dht_pin) =
  [tm_date rt; sl_time l; fmt1 (sl_temp_c l); fmt1 (sl_temp_f l);
   fmt1 (sl_humidity l); str_pin dht_pin].
Proof.
  intros rt l pin Hd Ht Hp. unfold log_line, py_split, TAB, CRLF. cbn [append].
  rewrite !split_ws_close by (first [assumption | apply fmt1_word | reflexivity]).
  reflexivity.
Qed.

Lemma log_line_fields_witness :
  is_word (tm_date rt0) = true /\ is_word (sl_time reading_21_4) = true /\
  is_word (str_pin (Some "4")) = true /\
  py_split (log_line rt0 reading_21_4 (Some "4")) =
  [tm_date rt0; sl_time reading_21_4; fmt1 (sl_temp_c reading_21_4);
   fmt1 (sl_temp_f reading_21_4); fmt1 (sl_humidity reading_21_4); str_pin (Some "4")].
Proof.
  split; [reflexivity | split; [reflexivity | split; [reflexivity |]]].
  apply log_line_fields; reflexivity.
Defined.

(* ------------------------------------------------------------------ *)
(** ** Files the loader skips, and a missing directory *)

(** Only the listed paths whose stem contains a string of
    [sensor_list] matter to [open_url_files]: every other entry of the
    URL directory (a README, a subdirectory, a malformed or unreadable
    file) is never opened and cannot change the result or raise. *)
Theorem url_loop_ignores_nonmatching : forall f sensor_list paths url_dict,
  url_loop f sensor_list paths url_dict =
  url_loop f sensor_list
    (filter (fun p => matches sensor_list (file_string_of p)) paths) url_dict.
Proof.
  intros f sl paths. induction paths as [|p rest IH]; intros d; [reflexivity |].
  cbn [url_loop filter]. destruct (matches sl (file_string_of p)) eqn:E.
  - cbn [url_loop]. rewrite E.
    destruct (read_text f p); cbn [res_bind]; [| reflexivity].
    destruct (parse_url_file a); cbn [res_bind]; [apply IH | reflexivity].
  - apply IH.
Qed.

(** A missing configuration location is not an error: when [x] is not a
    directory, [open_url_files(os.path.join(x, y), sensor_list)] lists
    nothing and returns the empty dict. *)
Theorem open_url_files_missing_dir : forall f x y sensor_list,
  ends_in_name x = true -> no_char slash y = true -> y <> EmptyString ->
  is_dir f x = false ->
  open_url_files f (join x y) sensor_list = POk [].
Proof.
  intros f x y sl Hx Hy Hne Hd. unfold open_url_files.
  destruct (glob_star f (join x y ++ "*")) as [|p ps] eqn:E; [reflexivity |].
  exfalso. destruct y as [|c y']; [contradiction |].
  assert (Hin : In p (glob_star f (join x (String c y') ++ "*"))) by (rewrite E; left; reflexivity).
  rewrite (join_name x c y' Hx (no_char_first _ _ Hy)), append_assoc_s in Hin.
  cbn [append] in Hin. change (String c (y' ++ "*")) with (String c y' ++ "*") in Hin.
  unfold glob_star in Hin.
  rewrite pysplit_join_name in Hin
    by (assumption || (rewrite no_char_app, Hy; reflexivity)).
  destruct (ends_in_name_snoc _ Hx) as (x0 & a & Ex & _).
  rewrite Hd, orb_false_r in Hin.
  rewrite Ex, app_string_nonempty in Hin. destruct Hin.
Qed.

Lemma open_url_files_missing_dir_witness :
  ends_in_name "/home/pi/config" = true /\ no_char slash "url" = true /\
  "url" <> EmptyString /\ is_dir fs_install "/home/pi/config" = false /\
  open_url_files fs_install (join "/home/pi/config" "url") main_sensors = POk [].
Proof.
  split; [reflexivity | split; [reflexivity | split; [discriminate | split; [reflexivity |]]]].
  apply open_url_files_missing_dir; [reflexivity | reflexivity | discriminate | reflexivity].
Defined.
